(** * React-Navigation V5 routing instrumentation

    A shallow embedding of [src/js/tracing/reactnavigationv5.ts]: the class
    [ReactNavigationV5Instrumentation], its handlers [_onDispatch],
    [_onStateChange], [_discardLatestTransaction], the bounded ledger of
    recent route keys, and [registerNavigationContainer].

    The instance fields are a record ([ReactNavigationV5Instrumentation],
    [Instr] for short); everything the class reaches
    outside itself (the transactions handed out by the tracing runtime, the
    host's timers, the listeners of the navigation container, the global
    registration flag, the logger) is a second record ([World]).  Every
    method is a function from both records to both records. *)

From stdpp Require Import gmap strings list fin_maps.


(** ** JavaScript values and objects *)

(** The values that occur in a transaction context or in route params.
    An object is a finite map from property names to values. *)
#[warnings="-register-all"]
Inductive JsValue : Type :=
  | JNull
  | JBool (b : bool)
  | JNum (z : Z)
  | JStr (s : string)
  | JObj (fields : gmap string JsValue).

(** A transaction context is such an object: [name], [op], [tags], [data],
    [sampled] and whatever else the tracing runtime keeps in it.  It is
    written [gmap string JsValue] throughout. *)

(** [{...v}] for an optional property [v]: the own properties of an object,
    nothing for [undefined], [null], booleans and numbers.  The declared
    type of [tags] and [data] is an object type, so no string is spread. *)
Definition spread (v : option JsValue) : gmap string JsValue :=
  match v with
  | Some (JObj m) => m
  | _ => ∅
  end.

(** [ctx.sampled === false] *)
Definition sampled_is_false (ctx : gmap string JsValue) : bool :=
  match ctx !! "sampled" with
  | Some (JBool false) => true
  | _ => false
  end.

(** ** Routes *)

(** [NavigationRouteV5]; [params] is optional. *)
Record NavigationRouteV5 : Type := mkRoute {
  name : string;
  key : string;
  params : option (gmap string JsValue);
}.

(** [x ?? {}] *)
Definition orEmpty (p : option (gmap string JsValue)) : gmap string JsValue :=
  match p with
  | Some m => m
  | None => ∅
  end.

(** ** The blank template *)

Definition instrumentationName : string := "react-navigation-v5".

Definition BLANK_TRANSACTION_CONTEXT_V5 : gmap string JsValue :=
  <["name" := JStr "Route Change"]>
  (<["op" := JStr "navigation"]>
  (<["tags" := JObj (<["routing.instrumentation" := JStr instrumentationName]> ∅)]>
  (<["data" := JObj ∅]> ∅))).

(** ** Collaborators *)

(** The calls the class makes on a transaction object. *)
Inductive TxCall : Type :=
  | CallFinish
  | CallUpdateWithContext (ctx : gmap string JsValue).

(** Modelled from the spec: the transaction object of the tracing runtime
    ([Transaction] of [@sentry/types], not under src/), through the interface
    the spec gives it: [snapshotContext() -> Context], [setSampled(bool)],
    [finish()], [updateWithContext(Context)].  [tx_context] is what
    [toContext()] returns, [tx_sampled] the [sampled] property ([None] while
    nobody has assigned it), [tx_calls] the method calls received so far. *)
Record Transaction : Type := mkTx {
  tx_context : gmap string JsValue;
  tx_sampled : option bool;
  tx_calls : list TxCall;
}.

Definition tx_finished (tx : Transaction) : bool :=
  existsb (fun c => match c with CallFinish => true | _ => false end) (tx_calls tx).

Inductive Level : Type := LevelLog | LevelWarn | LevelError.

(** The messages of the class, one constructor per call site of [logger]. *)
Inductive Message : Type :=
  | MsgNotSetupYet
  | MsgInvalidContainerRef
  | MsgAlreadyRegistered
  | MsgMissingContainerRef
  | MsgBeforeNavigateReturnedNothing
  | MsgWillNotSend (finalContextName : option JsValue).

(** The two bound methods handed to [addListener]. *)
Inductive Handler : Type := HandlerOnDispatch | HandlerOnStateChange.

(** The only callback ever passed to [setTimeout]. *)
Inductive TimerCallback : Type := CallbackDiscardLatestTransaction.

(** Everything outside the instance.  Transactions are addressed by their
    index in [transactions], timers by the handle [setTimeout] returned,
    navigation containers by a number. *)
Record World : Type := mkWorld {
  transactions : list Transaction;
  timers : gmap nat (TimerCallback * Z);
  nextTimer : nat;
  listeners : list (nat * string * Handler);
  __sentry_rn_v5_registered : bool;
  hookCalls : list (gmap string JsValue);
  logged : list (Level * Message);
}.

Definition set_transactions (f : list Transaction → list Transaction) (w : World) : World :=
  mkWorld (f (transactions w)) (timers w) (nextTimer w) (listeners w)
          (__sentry_rn_v5_registered w) (hookCalls w) (logged w).

Definition set_registered (b : bool) (w : World) : World :=
  mkWorld (transactions w) (timers w) (nextTimer w) (listeners w)
          b (hookCalls w) (logged w).

Definition log (l : Level) (m : Message) (w : World) : World :=
  mkWorld (transactions w) (timers w) (nextTimer w) (listeners w)
          (__sentry_rn_v5_registered w) (hookCalls w) (logged w ++ [(l, m)]).

(** [container.addListener(type, listener)] *)
Definition addListener (c : nat) (type : string) (h : Handler) (w : World) : World :=
  mkWorld (transactions w) (timers w) (nextTimer w) (listeners w ++ [(c, type, h)])
          (__sentry_rn_v5_registered w) (hookCalls w) (logged w).

(** [setTimeout(cb, ms)]: a fresh handle, the timer becomes live. *)
Definition setTimeout (cb : TimerCallback) (ms : Z) (w : World) : nat * World :=
  (nextTimer w,
   mkWorld (transactions w) (<[nextTimer w := (cb, ms)]> (timers w)) (S (nextTimer w))
           (listeners w) (__sentry_rn_v5_registered w) (hookCalls w) (logged w)).

(** [clearTimeout(h)]: the timer is no longer live; nothing happens for a
    handle that already fired. *)
Definition clearTimeout (h : nat) (w : World) : World :=
  mkWorld (transactions w) (delete h (timers w)) (nextTimer w)
          (listeners w) (__sentry_rn_v5_registered w) (hookCalls w) (logged w).

(** Modelled from the spec: [onRouteWillChange] of the base class
    [RoutingInstrumentation] and the transaction creator it forwards to
    (routingInstrumentation.ts, not under src/): [create(context) ->
    TransactionHandle], a new transaction seeded with the given context. *)
Definition onRouteWillChange (ctx : gmap string JsValue) (w : World) : nat * World :=
  (length (transactions w), set_transactions (fun l => l ++ [mkTx ctx None []]) w).

(** [tx.toContext()] *)
Definition toContext (t : nat) (w : World) : gmap string JsValue :=
  match transactions w !! t with
  | Some tx => tx_context tx
  | None => ∅
  end.

(** [tx.updateWithContext(ctx)] *)
Definition updateWithContext (t : nat) (ctx : gmap string JsValue) (w : World) : World :=
  set_transactions
    (alter (fun tx => mkTx ctx (tx_sampled tx) (tx_calls tx ++ [CallUpdateWithContext ctx])) t) w.

(** [tx.sampled = b] *)
Definition setSampled (t : nat) (b : bool) (w : World) : World :=
  set_transactions (alter (fun tx => mkTx (tx_context tx) (Some b) (tx_calls tx)) t) w.

(** [tx.finish()] *)
Definition finish (t : nat) (w : World) : World :=
  set_transactions
    (alter (fun tx => mkTx (tx_context tx) (tx_sampled tx) (tx_calls tx ++ [CallFinish])) t) w.

(** ** The instance *)

Record ReactNavigationV5Options : Type := mkOptions {
  routeChangeTimeoutMs : Z;
}.

Definition defaultOptions : ReactNavigationV5Options :=
  {| routeChangeTimeoutMs := 1000 |}.

(** The fields of [ReactNavigationV5Instrumentation].  [_beforeNavigate] is
    inherited from the base class; [None] in an optional field is
    [undefined] (or [null] for [_navigationContainer]). *)
Record ReactNavigationV5Instrumentation : Type := mkInstr {
  _navigationContainer : option nat;
  _latestRoute : option NavigationRouteV5;
  _latestTransaction : option nat;
  _initialStateHandled : bool;
  _stateChangeTimeout : option nat;
  _recentRouteKeys : list string;
  _options : ReactNavigationV5Options;
  _beforeNavigate : option (gmap string JsValue → option (gmap string JsValue));
}.

Abbreviation Instr := ReactNavigationV5Instrumentation.

Definition _maxRecentRouteLen : nat := 200.

Definition set_navigationContainer (c : option nat) (s : Instr) : Instr :=
  mkInstr c (_latestRoute s) (_latestTransaction s) (_initialStateHandled s)
          (_stateChangeTimeout s) (_recentRouteKeys s) (_options s) (_beforeNavigate s).

Definition set_latestRoute (r : option NavigationRouteV5) (s : Instr) : Instr :=
  mkInstr (_navigationContainer s) r (_latestTransaction s) (_initialStateHandled s)
          (_stateChangeTimeout s) (_recentRouteKeys s) (_options s) (_beforeNavigate s).

Definition set_latestTransaction (t : option nat) (s : Instr) : Instr :=
  mkInstr (_navigationContainer s) (_latestRoute s) t (_initialStateHandled s)
          (_stateChangeTimeout s) (_recentRouteKeys s) (_options s) (_beforeNavigate s).

Definition set_initialStateHandled (b : bool) (s : Instr) : Instr :=
  mkInstr (_navigationContainer s) (_latestRoute s) (_latestTransaction s) b
          (_stateChangeTimeout s) (_recentRouteKeys s) (_options s) (_beforeNavigate s).

Definition set_stateChangeTimeout (h : option nat) (s : Instr) : Instr :=
  mkInstr (_navigationContainer s) (_latestRoute s) (_latestTransaction s)
          (_initialStateHandled s) h (_recentRouteKeys s) (_options s) (_beforeNavigate s).

Definition set_recentRouteKeys (l : list string) (s : Instr) : Instr :=
  mkInstr (_navigationContainer s) (_latestRoute s) (_latestTransaction s)
          (_initialStateHandled s) (_stateChangeTimeout s) l (_options s) (_beforeNavigate s).

Definition set_beforeNavigate
    (f : option (gmap string JsValue → option (gmap string JsValue))) (s : Instr) : Instr :=
  mkInstr (_navigationContainer s) (_latestRoute s) (_latestTransaction s)
          (_initialStateHandled s) (_stateChangeTimeout s) (_recentRouteKeys s) (_options s) f.

(** [constructor(options = {})]: the defaults, overridden by what is given. *)
Definition constructor (routeChangeTimeout : option Z) : Instr :=
  mkInstr None None None false None []
          (match routeChangeTimeout with
           | Some ms => {| routeChangeTimeoutMs := ms |}
           | None => defaultOptions
           end)
          None.

(** The process before anything ran. *)
Definition emptyWorld : World := mkWorld [] ∅ 1 [] false [] [].

(** ** The ledger of recent route keys *)

(** [keys.includes(key)] *)
Fixpoint includes (k : string) (keys : list string) : bool :=
  match keys with
  | [] => false
  | k' :: rest => if String.eqb k' k then true else includes k rest
  end.

(** [_pushRecentRouteKey] on the array itself: [push], then [slice] from
    [length - _maxRecentRouteLen] when the array got too long. *)
Definition pushRecentRouteKey (k : string) (keys : list string) : list string :=
  let keys1 := keys ++ [k] in
  if Nat.ltb _maxRecentRouteLen (length keys1)
  then drop (length keys1 - _maxRecentRouteLen) keys1
  else keys1.

Definition _pushRecentRouteKey (k : string) (s : Instr) : Instr :=
  set_recentRouteKeys (pushRecentRouteKey k (_recentRouteKeys s)) s.

(** ** The handlers *)

(** [_discardLatestTransaction] *)
Definition _discardLatestTransaction (s : Instr) (w : World) : Instr * World :=
  match _latestTransaction s with
  | Some t =>
      let w1 := setSampled t false w in
      let w2 := finish t w1 in
      (set_latestTransaction None s, w2)
  | None => (s, w)
  end.

(** [_onDispatch] *)
Definition _onDispatch (s : Instr) (w : World) : Instr * World :=
  let '(t, w1) := onRouteWillChange BLANK_TRANSACTION_CONTEXT_V5 w in
  let s1 := set_latestTransaction (Some t) s in
  let '(h, w2) := setTimeout CallbackDiscardLatestTransaction
                             (routeChangeTimeoutMs (_options s1)) w1 in
  (set_stateChangeTimeout (Some h) s1, w2).

(** The object put under [data.route]. *)
Definition routeData (route : NavigationRouteV5) (routeHasBeenSeen : bool) : JsValue :=
  JObj (<["name" := JStr (name route)]>
       (<["key" := JStr (key route)]>
       (<["params" := JObj (orEmpty (params route))]>
       (<["hasBeenSeen" := JBool routeHasBeenSeen]> ∅)))).

(** The value put under [data.previousRoute]. *)
Definition previousRouteData (previousRoute : option NavigationRouteV5) : JsValue :=
  match previousRoute with
  | Some p =>
      JObj (<["name" := JStr (name p)]>
           (<["key" := JStr (key p)]>
           (<["params" := JObj (orEmpty (params p))]> ∅)))
  | None => JNull
  end.

(** The object literal bound to [updatedContext] in [_onStateChange]. *)
Definition updatedContext (originalContext : gmap string JsValue) (route : NavigationRouteV5)
    (routeHasBeenSeen : bool) (previousRoute : option NavigationRouteV5)
    : gmap string JsValue :=
  <["data" := JObj (<["previousRoute" := previousRouteData previousRoute]>
                   (<["route" := routeData route routeHasBeenSeen]>
                   (spread (originalContext !! "data"))))]>
  (<["tags" := JObj (<["routing.route.name" := JStr (name route)]>
                    (spread (originalContext !! "tags")))]>
  (<["name" := JStr (name route)]> originalContext)).

(** [!previousRoute || previousRoute.key !== route.key] *)
Definition routeChanged (previousRoute : option NavigationRouteV5)
    (route : NavigationRouteV5) : bool :=
  match previousRoute with
  | None => true
  | Some p => negb (String.eqb (key p) (key route))
  end.

(** [this._beforeNavigate?.(updatedContext)]; a call of the hook is noted
    in [hookCalls]. *)
Definition callBeforeNavigate (s : Instr) (ctx : gmap string JsValue) (w : World)
    : option (gmap string JsValue) * World :=
  match _beforeNavigate s with
  | Some hook =>
      (hook ctx,
       mkWorld (transactions w) (timers w) (nextTimer w) (listeners w)
               (__sentry_rn_v5_registered w) (hookCalls w ++ [ctx]) (logged w))
  | None => (None, w)
  end.

(** The body of the inner [if] of [_onStateChange], for the pending
    transaction [t]. *)
Definition decorate (t : nat) (previousRoute : option NavigationRouteV5)
    (route : NavigationRouteV5) (s : Instr) (w : World) : Instr * World :=
  let originalContext := toContext t w in
  let routeHasBeenSeen := includes (key route) (_recentRouteKeys s) in
  let updated := updatedContext originalContext route routeHasBeenSeen previousRoute in
  let '(returned, w1) := callBeforeNavigate s updated w in
  let '(finalContext, w2) :=
    match returned with
    | Some ctx => (ctx, w1)
    | None =>
        (<["sampled" := JBool false]> updated,
         log LevelError MsgBeforeNavigateReturnedNothing w1)
    end in
  let '(s3, w3) :=
    if sampled_is_false finalContext
    then (s, log LevelLog (MsgWillNotSend (finalContext !! "name")) w2)
    else
      match _stateChangeTimeout s with
      | Some h => (set_stateChangeTimeout None s, clearTimeout h w2)
      | None => (s, w2)
      end in
  (s3, updateWithContext t finalContext w3).

(** [_onStateChange]; [current] is what [getCurrentRoute()] answers when the
    handler asks. *)
Definition _onStateChange (current : option NavigationRouteV5) (s : Instr) (w : World)
    : Instr * World :=
  let previousRoute := _latestRoute s in
  match _navigationContainer s with
  | None => (s, log LevelWarn MsgMissingContainerRef w)
  | Some _ =>
      match current with
      | Some route =>
          let '(s1, w1) :=
            match _latestTransaction s with
            | Some t =>
                if routeChanged previousRoute route
                then decorate t previousRoute route s w
                else (s, w)
            | None => (s, w)
            end in
          let s2 := _pushRecentRouteKey (key route) s1 in
          (set_latestRoute (Some route) s2, w1)
      | None => (s, w)
      end
  end.

(** ** Registration *)

(** What [registerNavigationContainer] is given (the parameter is typed
    [any]): an object with a [current] property (a React ref, whose
    [current] may still be [null]), the container itself, or something that
    is no object at all ([null], [undefined], a number, a string ...). *)
Inductive NavigationContainerRef : Type :=
  | RefObject (current : option nat)
  | ContainerItself (container : nat)
  | NotAnObject.

(** How a call ends: it returns, or a [TypeError] leaves it. *)
Inductive Completion (A : Type) : Type :=
  | Returns (a : A)
  | ThrowsTypeError.

Arguments Returns {A} a.
Arguments ThrowsTypeError {A}.

(** The rest of [registerNavigationContainer] once [_navigationContainer]
    has been assigned [container] (lines 108 to 136). *)
Definition registerResolved (container : option nat)
    (current : option NavigationRouteV5) (s : Instr) (w : World) : Instr * World :=
  let s1 := set_navigationContainer container s in
  match _navigationContainer s1 with
  | Some c =>
      let w1 := addListener c "__unsafe_action__" HandlerOnDispatch w in
      let w2 := addListener c "state" HandlerOnStateChange w1 in
      let '(s3, w3) :=
        if negb (_initialStateHandled s1) then
          match _latestTransaction s1 with
          | Some _ =>
              let '(s2, w') := _onStateChange current s1 w2 in
              (set_initialStateHandled true s2, w')
          | None => (s1, log LevelLog MsgNotSetupYet w2)
          end
        else (s1, w2) in
      (s3, set_registered true w3)
  | None => (s1, log LevelWarn MsgInvalidContainerRef w)
  end.

(** [registerNavigationContainer]; [current] is what [getCurrentRoute()]
    answers if the initial [_onStateChange] runs.  With the flag unset the
    test ["current" in navigationContainerRef] comes first: the [in]
    operator throws a [TypeError] when its right operand is no object. *)
Definition registerNavigationContainer (navigationContainerRef : NavigationContainerRef)
    (current : option NavigationRouteV5) (s : Instr) (w : World)
    : Completion (Instr * World) :=
  if negb (__sentry_rn_v5_registered w) then
    match navigationContainerRef with
    | RefObject c => Returns (registerResolved c current s w)
    | ContainerItself c => Returns (registerResolved (Some c) current s w)
    | NotAnObject => ThrowsTypeError
    end
  else Returns (s, log LevelLog MsgAlreadyRegistered w).

(** [registerRoutingInstrumentation].  Modelled from the spec: the call of
    the base class ([super.registerRoutingInstrumentation], not under src/)
    keeps the caller-supplied decoration hook; the transaction creator it
    also keeps is [onRouteWillChange] above. *)
Definition registerRoutingInstrumentation
    (beforeNavigate : gmap string JsValue → option (gmap string JsValue))
    (current : option NavigationRouteV5) (s : Instr) (w : World) : Instr * World :=
  let s0 := set_beforeNavigate (Some beforeNavigate) s in
  if negb (_initialStateHandled s0) then
    let '(s1, w1) := _onDispatch s0 w in
    match _navigationContainer s1 with
    | Some _ =>
        let '(s2, w2) := _onStateChange current s1 w1 in
        (set_initialStateHandled true s2, w2)
    | None => (s1, w1)
    end
  else (s0, w).

(** ** Events *)

(** A timer fires: it stops being live and its callback runs.  A handle
    that is not live (cleared, or fired already) does nothing. *)
Definition fireTimer (h : nat) (s : Instr) (w : World) : Instr * World :=
  match timers w !! h with
  | Some (CallbackDiscardLatestTransaction, _) =>
      _discardLatestTransaction s (clearTimeout h w)
  | None => (s, w)
  end.

(** What can happen to an instance, one at a time (the host is single
    threaded): the two registrations, the two container events, a timer.
    A registration that throws leaves its caller with the instance and the
    world as they were. *)
Inductive Event : Type :=
  | RegisterRoutingInstrumentation
      (beforeNavigate : gmap string JsValue → option (gmap string JsValue))
      (current : option NavigationRouteV5)
  | RegisterNavigationContainer (ref : NavigationContainerRef)
      (current : option NavigationRouteV5)
  | Dispatch
  | StateChange (current : option NavigationRouteV5)
  | TimerFires (h : nat).

Definition step (e : Event) (sw : Instr * World) : Instr * World :=
  match e with
  | RegisterRoutingInstrumentation hook cur => registerRoutingInstrumentation hook cur sw.1 sw.2
  | RegisterNavigationContainer ref cur =>
      match registerNavigationContainer ref cur sw.1 sw.2 with
      | Returns sw' => sw'
      | ThrowsTypeError => sw
      end
  | Dispatch => _onDispatch sw.1 sw.2
  | StateChange cur => _onStateChange cur sw.1 sw.2
  | TimerFires h => fireTimer h sw.1 sw.2
  end.

(** The events of a list, first to last. *)
Definition run (es : list Event) (sw : Instr * World) : Instr * World :=
  foldl (fun acc e => step e acc) sw es.

(** The ledger after recording a list of keys one after the other. *)
Definition recordAll (ks : list string) (keys : list string) : list string :=
  foldl (fun acc k => pushRecentRouteKey k acc) keys ks.

(** Test routes. *)
Definition routeA : NavigationRouteV5 := mkRoute "A" "k1" None.
Definition routeB : NavigationRouteV5 := mkRoute "B" "k2" None.

(** The decoration hook that returns its argument. *)
Definition keepContext (ctx : gmap string JsValue) : option (gmap string JsValue) := Some ctx.

(** The decoration hook that vetoes. *)
Definition vetoContext (ctx : gmap string JsValue) : option (gmap string JsValue) :=
  Some (<["sampled" := JBool false]> ctx).

(** The decoration hook that returns nothing. *)
Definition returnNothing (ctx : gmap string JsValue) : option (gmap string JsValue) := None.

(** The instance after the usual start-up: the integration is set up with
    a decoration hook, then a container showing route A registers. *)
Definition startedWith (hook : gmap string JsValue → option (gmap string JsValue))
    : Instr * World :=
  run [RegisterRoutingInstrumentation hook None;
       RegisterNavigationContainer (ContainerItself 0) (Some routeA)]
      (constructor None, emptyWorld).

Definition started : Instr * World := startedWith keepContext.

(** The transaction a dispatch asks for: seeded with the blank template,
    [sampled] not assigned, no call made on it. *)
Definition blankTransaction : Transaction := mkTx BLANK_TRANSACTION_CONTEXT_V5 None [].

(** The updated context [_onStateChange] builds for the route, when the
    pending transaction is [tx]. *)
Definition updatedOf (s : Instr) (tx : Transaction) (route : NavigationRouteV5)
    : gmap string JsValue :=
  updatedContext (tx_context tx) route
                 (includes (key route) (_recentRouteKeys s)) (_latestRoute s).

(** The container a ref stands for, if any. *)
Definition resolve (ref : NavigationContainerRef) : option nat :=
  match ref with
  | RefObject c => c
  | ContainerItself c => Some c
  | NotAnObject => None
  end.

(** After start-up and one dispatch: transaction 1 is pending, its timer
    has handle 2, the latest route is route A. *)
Definition awaitingWith (hook : gmap string JsValue → option (gmap string JsValue))
    : Instr * World :=
  run [Dispatch] (startedWith hook).

Definition awaiting : Instr * World := awaitingWith keepContext.

(** 201 different keys: the one-character strings of codes 0 to 200. *)
Definition manyKeys : list string :=
  (fun n => String (Ascii.ascii_of_nat n) EmptyString) <$> seq 0 201.

(** 201 routes with different keys, each named by its key. *)
Definition manyRoutes : list NavigationRouteV5 :=
  (fun k => mkRoute k k None) <$> manyKeys.

(** A state is well formed when the handle of the pending transaction
    names a transaction of the store and every live timer has a handle that
    [setTimeout] already handed out. *)
Definition wf (sw : Instr * World) : Prop :=
  (∀ t, _latestTransaction sw.1 = Some t → t < length (transactions sw.2))
  ∧ (∀ h, h ∈ dom (timers sw.2) → h < nextTimer sw.2).

(** The number of [finish()] calls a transaction received. *)
Definition finishCalls (tx : Transaction) : nat :=
  length (List.filter (fun c => match c with CallFinish => true | _ => false end)
                      (tx_calls tx)).

(** The state changes that find the routes of a list, one after the other. *)
Definition stateChanges (rs : list NavigationRouteV5) : list Event :=
  (fun r => StateChange (Some r)) <$> rs.

(** Two states agree on the pending transaction, the options, the store of
    transactions and the timers. *)
Definition sameCore (sw sw' : Instr * World) : Prop :=
  _latestTransaction sw'.1 = _latestTransaction sw.1
  ∧ _options sw'.1 = _options sw.1
  ∧ transactions sw'.2 = transactions sw.2
  ∧ timers sw'.2 = timers sw.2
  ∧ nextTimer sw'.2 = nextTimer sw.2.

(** The listeners one registration attaches to the container [c]. *)
Definition registeredListeners (c : nat) : list (nat * string * Handler) :=
  [(c, "__unsafe_action__", HandlerOnDispatch); (c, "state", HandlerOnStateChange)].

(** Either nothing is registered, or one container is: the flag is set, the
    instance holds the container, and the container has the two listeners. *)
Definition registeredOnce (sw : Instr * World) : Prop :=
  (__sentry_rn_v5_registered sw.2 = false
   ∧ listeners sw.2 = []
   ∧ _navigationContainer sw.1 = None
   ∧ _initialStateHandled sw.1 = false)
  ∨ (∃ c, __sentry_rn_v5_registered sw.2 = true
          ∧ listeners sw.2 = registeredListeners c
          ∧ _navigationContainer sw.1 = Some c).

(** Every live timer runs the discard callback after the configured time. *)
Definition timersConfigured (ms : Z) (sw : Instr * World) : Prop :=
  routeChangeTimeoutMs (_options sw.1) = ms
  ∧ ∀ h x, timers sw.2 !! h = Some x → x = (CallbackDiscardLatestTransaction, ms).

(** No transaction was finished twice, and the pending transaction was
    neither finished nor had [sampled] assigned. *)
Definition finishedOnce (sw : Instr * World) : Prop :=
  ∀ i tx, transactions sw.2 !! i = Some tx →
    finishCalls tx ≤ 1
    ∧ (_latestTransaction sw.1 = Some i → finishCalls tx = 0 ∧ tx_sampled tx = None).

(** ** Proof automation for the handlers *)

Ltac unfold_handlers :=
  unfold step, registerRoutingInstrumentation, registerNavigationContainer,
    registerResolved, fireTimer, _onStateChange, decorate, callBeforeNavigate, _onDispatch,
    _discardLatestTransaction, onRouteWillChange, setTimeout in *.

Ltac handler_cases :=
  unfold_handlers; simpl in *; repeat (case_match; simplify_eq/=); try done.

(** * Properties *)

(** ** The ledger *)

Section Ledger.

Implicit Types (k : string) (keys ks : list string).

Lemma includes_elem_of k keys : includes k keys = true ↔ k ∈ keys.
Proof.
  induction keys as [|k' rest IH]; simpl.
  - split; [done | by intros ?%elem_of_nil].
  - rewrite elem_of_cons. destruct (String.eqb_spec k' k) as [->|Hne].
    + split; auto.
    + rewrite IH. split; [by right | intros [->|?]; [done | assumption]].
Qed.

(** A push keeps the last [_maxRecentRouteLen] entries of the longer array. *)
Lemma pushRecentRouteKey_drop k keys :
  pushRecentRouteKey k keys
  = drop (length (keys ++ [k]) - _maxRecentRouteLen) (keys ++ [k]).
Proof.
  unfold pushRecentRouteKey. cbv zeta.
  destruct (Nat.ltb_spec _maxRecentRouteLen (length (keys ++ [k]))) as [Hlt|Hle].
  - reflexivity.
  - replace (length (keys ++ [k]) - _maxRecentRouteLen) with 0 by lia.
    reflexivity.
Qed.

Lemma pushRecentRouteKey_length k keys :
  length (pushRecentRouteKey k keys) ≤ _maxRecentRouteLen.
Proof. rewrite pushRecentRouteKey_drop, length_drop. lia. Qed.

Lemma recordAll_drop ks : ∀ keys,
  length keys ≤ _maxRecentRouteLen →
  recordAll ks keys
  = drop (length (keys ++ ks) - _maxRecentRouteLen) (keys ++ ks).
Proof.
  unfold recordAll.
  induction ks as [|k ks IH]; intros keys Hlen; simpl.
  - rewrite app_nil_r. replace (length keys - _maxRecentRouteLen) with 0 by lia.
    reflexivity.
  - rewrite IH by apply pushRecentRouteKey_length.
    rewrite pushRecentRouteKey_drop.
    set (m := keys ++ [k]).
    replace (keys ++ k :: ks) with (m ++ ks)
      by (unfold m; rewrite <- app_assoc; reflexivity).
    set (d := length m - _maxRecentRouteLen).
    assert (Hd : d ≤ length m) by (unfold d; lia).
    rewrite <- (drop_app_le m ks d Hd), drop_drop.
    f_equal. rewrite length_drop. unfold d. rewrite !length_app. lia.
Qed.

End Ledger.

(** ** Frame facts about the handlers *)

Lemma _onStateChange_registered current s w :
  __sentry_rn_v5_registered (_onStateChange current s w).2 = __sentry_rn_v5_registered w.
Proof. handler_cases. Qed.

Lemma _onStateChange_listeners current s w :
  listeners (_onStateChange current s w).2 = listeners w.
Proof. handler_cases. Qed.

Lemma _onStateChange_container current s w :
  _navigationContainer (_onStateChange current s w).1 = _navigationContainer s.
Proof. handler_cases. Qed.

(** A state change that finds a route records its key and remembers the
    route; otherwise the ledger and the latest route stay. *)
Lemma _onStateChange_ledger current s w :
  let sw := _onStateChange current s w in
  match _navigationContainer s, current with
  | Some _, Some route =>
      _recentRouteKeys sw.1 = pushRecentRouteKey (key route) (_recentRouteKeys s)
      ∧ _latestRoute sw.1 = Some route
  | _, _ =>
      _recentRouteKeys sw.1 = _recentRouteKeys s ∧ _latestRoute sw.1 = _latestRoute s
  end.
Proof. handler_cases. Qed.

Lemma step_registered e sw :
  __sentry_rn_v5_registered sw.2 = true →
  __sentry_rn_v5_registered (step e sw).2 = true.
Proof. destruct sw as [s w]. destruct e; handler_cases. Qed.

Lemma run_registered es : ∀ sw,
  __sentry_rn_v5_registered sw.2 = true →
  __sentry_rn_v5_registered (run es sw).2 = true.
Proof.
  induction es as [|e es IH]; intros sw H; simpl; [done|].
  apply IH. by apply step_registered.
Qed.

Lemma step_ledger_length e sw :
  length (_recentRouteKeys sw.1) ≤ _maxRecentRouteLen →
  length (_recentRouteKeys (step e sw).1) ≤ _maxRecentRouteLen.
Proof.
  destruct sw as [s w]. intros H.
  assert (Hsc : ∀ cur s' w', length (_recentRouteKeys s') ≤ _maxRecentRouteLen →
            length (_recentRouteKeys (_onStateChange cur s' w').1) ≤ _maxRecentRouteLen).
  { intros cur s' w' H'. pose proof (_onStateChange_ledger cur s' w') as L.
    cbv zeta in L. destruct (_navigationContainer s'), cur; destruct L as [-> _];
      auto using pushRecentRouteKey_length. }
  simpl in H. destruct e; simpl.
  - unfold registerRoutingInstrumentation. simpl.
    destruct (_initialStateHandled s); simpl; try done.
    destruct (_navigationContainer s); simpl; try done.
    destruct (_onStateChange _ _ _) as [s2 w2] eqn:E. simpl.
    change s2 with (s2, w2).1. rewrite <- E. by apply Hsc.
  - unfold registerNavigationContainer, registerResolved.
    destruct (__sentry_rn_v5_registered w); simpl; try done.
    destruct ref as [[c|]|c|]; simpl; try done.
    all: destruct (_initialStateHandled s); simpl; try done.
    all: destruct (_latestTransaction s); simpl; try done.
    all: destruct (_onStateChange _ _ _) as [s2 w2] eqn:E; simpl.
    all: change s2 with (s2, w2).1; rewrite <- E; by apply Hsc.
  - done.
  - by apply Hsc.
  - unfold fireTimer. destruct (timers w !! h) as [[[] ?]|]; try done.
    unfold _discardLatestTransaction. by destruct (_latestTransaction s).
Qed.

Lemma run_ledger_length es : ∀ sw,
  length (_recentRouteKeys sw.1) ≤ _maxRecentRouteLen →
  length (_recentRouteKeys (run es sw).1) ≤ _maxRecentRouteLen.
Proof.
  induction es as [|e es IH]; intros sw H; simpl; [done|].
  apply IH. by apply step_ledger_length.
Qed.

(** ** Well-formed states *)

(** A state change keeps the pending transaction, creates no transaction
    and arms no timer. *)
Lemma _onStateChange_pending current s w :
  _latestTransaction (_onStateChange current s w).1 = _latestTransaction s
  ∧ length (transactions (_onStateChange current s w).2) = length (transactions w)
  ∧ nextTimer (_onStateChange current s w).2 = nextTimer w
  ∧ dom (timers (_onStateChange current s w).2) ⊆ dom (timers w).
Proof.
  unfold _onStateChange, decorate, callBeforeNavigate.
  destruct (_navigationContainer s); [|by split_and!].
  destruct current as [route|]; [|by split_and!].
  destruct (_latestTransaction s) as [t|] eqn:El; [|by split_and!].
  destruct (routeChanged (_latestRoute s) route); [|by split_and!].
  destruct (_beforeNavigate s) as [hook|]; [destruct (hook _)|].
  all: destruct (sampled_is_false _); [|destruct (_stateChangeTimeout s)].
  all: simpl; rewrite ?length_alter, ?dom_delete_L, ?El; split_and!; try done.
  all: apply elem_of_subseteq; intros x; rewrite elem_of_difference; tauto.
Qed.

Lemma _onStateChange_wf current s w : wf (s, w) → wf (_onStateChange current s w).
Proof.
  unfold wf. simpl. intros [H1 H2].
  destruct (_onStateChange_pending current s w) as (E1 & E2 & E3 & E4).
  rewrite E1, E2, E3. split; [done|]. intros h Hh. apply H2.
  revert Hh. apply elem_of_subseteq. exact E4.
Qed.

Lemma _onDispatch_wf s w : wf (s, w) → wf (_onDispatch s w).
Proof.
  unfold wf. simpl. intros [H1 H2]. split.
  - intros t' [= <-]. rewrite length_app. simpl. lia.
  - intros h. rewrite dom_insert_L, elem_of_union, elem_of_singleton.
    intros [->|Hh]; [lia | apply H2 in Hh; lia].
Qed.

Lemma wf_instance s s' w :
  _latestTransaction s' = _latestTransaction s → wf (s, w) → wf (s', w).
Proof. unfold wf. simpl. intros ->. done. Qed.

Lemma wf_world s w w' :
  transactions w' = transactions w → timers w' = timers w → nextTimer w' = nextTimer w →
  wf (s, w) → wf (s, w').
Proof. unfold wf. simpl. intros -> -> ->. done. Qed.

Lemma registerRoutingInstrumentation_wf hook current s w :
  wf (s, w) → wf (registerRoutingInstrumentation hook current s w).
Proof.
  intros H. unfold registerRoutingInstrumentation.
  assert (H0 : wf (set_beforeNavigate (Some hook) s, w))
    by (by apply (wf_instance s)).
  destruct (negb (_initialStateHandled (set_beforeNavigate (Some hook) s))); [|done].
  apply _onDispatch_wf in H0.
  destruct (_onDispatch (set_beforeNavigate (Some hook) s) w) as [s1 w1].
  destruct (_navigationContainer s1); [|done].
  apply (_onStateChange_wf current) in H0.
  destruct (_onStateChange current s1 w1) as [s2 w2].
  by apply (wf_instance s2).
Qed.

Lemma registerResolved_wf c current s w :
  wf (s, w) → wf (registerResolved c current s w).
Proof.
  intros H. unfold registerResolved. cbv zeta.
  set (s1 := set_navigationContainer c s).
  assert (H1 : wf (s1, w)) by (by apply (wf_instance s)).
  destruct (_navigationContainer s1) as [c'|]; [|by apply (wf_world s1 w)].
  set (w2 := addListener c' "state" HandlerOnStateChange
               (addListener c' "__unsafe_action__" HandlerOnDispatch w)).
  assert (H2 : wf (s1, w2)) by (by apply (wf_world s1 w)).
  destruct (negb (_initialStateHandled s1)).
  - destruct (_latestTransaction s1) eqn:El.
    + apply (_onStateChange_wf current) in H2.
      destruct (_onStateChange current s1 w2) as [s2 w3].
      apply (wf_instance s2 (set_initialStateHandled true s2)) in H2; [|done].
      by apply (wf_world _ w3).
    + apply (wf_world s1 w2); done.
  - by apply (wf_world s1 w2).
Qed.

Lemma registerNavigationContainer_wf ref current s w :
  wf (s, w) → wf (step (RegisterNavigationContainer ref current) (s, w)).
Proof.
  intros H. simpl. unfold registerNavigationContainer.
  destruct (negb (__sentry_rn_v5_registered w)); [|by apply (wf_world s w)].
  destruct ref; [by apply registerResolved_wf.. | done].
Qed.

Lemma fireTimer_wf h s w : wf (s, w) → wf (fireTimer h s w).
Proof.
  intros H. unfold fireTimer.
  destruct (timers w !! h) as [[[] ms]|]; [|done].
  assert (H1 : wf (s, clearTimeout h w)).
  { destruct H as [Ha Hb]. split; [done|]. simpl. intros h'.
    rewrite dom_delete_L, elem_of_difference. intros [Hh _]. by apply Hb. }
  unfold _discardLatestTransaction.
  destruct (_latestTransaction s) eqn:El; [|done].
  destruct H1 as [Ha Hb]. split; [done|]. exact Hb.
Qed.

Lemma step_wf e sw : wf sw → wf (step e sw).
Proof.
  destruct sw as [s w]. intros H. destruct e; simpl.
  - by apply registerRoutingInstrumentation_wf.
  - by apply registerNavigationContainer_wf.
  - by apply _onDispatch_wf.
  - by apply _onStateChange_wf.
  - by apply fireTimer_wf.
Qed.

Lemma run_wf es : ∀ sw, wf sw → wf (run es sw).
Proof.
  induction es as [|e es IH]; intros sw H; simpl; [done|].
  apply IH. by apply step_wf.
Qed.

(** Every state the instance can be in is well formed. *)
Lemma reachable_wf es options : wf (run es (constructor options, emptyWorld)).
Proof. apply run_wf. split; [done|]. simpl. set_solver. Qed.

(** A dispatch arms a timer and clears none: in a well-formed state there
    is one more live timer afterwards. *)
Lemma _onDispatch_timers s w :
  wf (s, w) →
  timers (_onDispatch s w).2
  = <[nextTimer w := (CallbackDiscardLatestTransaction, routeChangeTimeoutMs (_options s))]>
      (timers w)
  ∧ size (timers (_onDispatch s w).2) = S (size (timers w)).
Proof.
  intros [_ Hfresh]. simpl in *. split; [reflexivity|].
  apply map_size_insert_None. apply not_elem_of_dom. intros Hin.
  apply Hfresh in Hin. lia.
Qed.

(** ** The claims *)

(** C8. The timer callback [_discardLatestTransaction]: with a pending
    transaction it sets that transaction's [sampled] to false, calls its
    [finish] once, touches no other transaction and forgets the pending
    transaction; with none pending it changes nothing at all; running it a
    second time is the same as running it once. *)
Theorem C8_discard (s : Instr) (w : World) :
  let sw := _discardLatestTransaction s w in
  (∀ t tx, _latestTransaction s = Some t → transactions w !! t = Some tx →
     transactions sw.2 !! t
       = Some (mkTx (tx_context tx) (Some false) (tx_calls tx ++ [CallFinish]))
     ∧ (∀ i, i ≠ t → transactions sw.2 !! i = transactions w !! i)
     ∧ _latestTransaction sw.1 = None)
  ∧ (_latestTransaction s = None → sw = (s, w))
  ∧ _discardLatestTransaction sw.1 sw.2 = sw.
Proof.
  intros sw. unfold sw, _discardLatestTransaction. split_and!.
  - intros t tx Ht Htx. rewrite Ht. simpl. split_and!.
    + rewrite !list_lookup_alter_eq, Htx. reflexivity.
    + intros i Hi. by rewrite !list_lookup_alter_ne by congruence.
    + reflexivity.
  - by intros ->.
  - destruct (_latestTransaction s) eqn:E; simpl; [reflexivity | by rewrite E].
Qed.

Lemma C8_discard_witness :
  let s := (_onDispatch (constructor None) emptyWorld).1 in
  let w := (_onDispatch (constructor None) emptyWorld).2 in
  _latestTransaction s = Some 0
  ∧ transactions w !! 0 = Some (mkTx BLANK_TRANSACTION_CONTEXT_V5 None [])
  ∧ transactions (_discardLatestTransaction s w).2 !! 0
    = Some (mkTx BLANK_TRANSACTION_CONTEXT_V5 (Some false) [CallFinish])
  ∧ _discardLatestTransaction (constructor None) emptyWorld = (constructor None, emptyWorld).
Proof.
  intros s w.
  assert (H1 : _latestTransaction s = Some 0) by reflexivity.
  assert (H2 : transactions w !! 0 = Some (mkTx BLANK_TRANSACTION_CONTEXT_V5 None []))
    by reflexivity.
  split_and!; [exact H1 | exact H2 | |].
  - destruct (C8_discard s w) as (H & _ & _).
    destruct (H 0 _ H1 H2) as (H3 & _ & _). exact H3.
  - destruct (C8_discard (constructor None) emptyWorld) as (_ & H & _).
    apply H. reflexivity.
Defined.

Lemma run_dispatches n : ∀ s w,
  let sw := run (replicate n Dispatch) (s, w) in
  transactions sw.2 = transactions w ++ replicate n blankTransaction
  ∧ (1 ≤ n → _latestTransaction sw.1 = Some (length (transactions w) + n - 1)).
Proof.
  induction n as [|n IH]; intros s w; simpl.
  - split; [by rewrite app_nil_r | lia].
  - specialize (IH (_onDispatch s w).1 (_onDispatch s w).2).
    cbv zeta in IH. rewrite <- surjective_pairing in IH.
    destruct IH as [IH1 IH2]. split.
    + rewrite IH1. simpl. by rewrite <- app_assoc.
    + intros _. destruct n as [|n].
      * simpl. f_equal. lia.
      * rewrite IH2 by lia. simpl. rewrite length_app. simpl. f_equal. lia.
Qed.

(** C2. After N >= 1 dispatches in a row, from any state, one transaction is
    pending: the last one created, seeded with the blank template.  The
    store holds what it held before, unchanged (so a transaction that was
    pending before was neither finished nor had [sampled] assigned), followed
    by the N new transactions, all still as created: no [finish] call, no
    [sampled] assigned. *)
Theorem C2_single_pending (n : nat) (s : Instr) (w : World) :
  1 ≤ n →
  let sw := run (replicate n Dispatch) (s, w) in
  let latest := length (transactions w) + n - 1 in
  _latestTransaction sw.1 = Some latest
  ∧ transactions sw.2 !! latest = Some blankTransaction
  ∧ transactions sw.2 = transactions w ++ replicate n blankTransaction
  ∧ (∀ t tx, transactions w !! t = Some tx → transactions sw.2 !! t = Some tx)
  ∧ (∀ t, length (transactions w) ≤ t < length (transactions w) + n →
       ∃ tx, transactions sw.2 !! t = Some tx
             ∧ tx_context tx = BLANK_TRANSACTION_CONTEXT_V5
             ∧ tx_sampled tx = None ∧ tx_finished tx = false ∧ tx_calls tx = []).
Proof.
  intros Hn sw latest.
  destruct (run_dispatches n s w) as [Htxs Hlatest]. fold sw in Htxs, Hlatest.
  assert (Hnew : ∀ t, length (transactions w) ≤ t < length (transactions w) + n →
            transactions sw.2 !! t = Some blankTransaction).
  { intros t Ht. rewrite Htxs, lookup_app_r by lia.
    apply lookup_replicate_2. lia. }
  split_and!.
  - by apply Hlatest.
  - apply Hnew. unfold latest. lia.
  - exact Htxs.
  - intros t tx Ht. rewrite Htxs. by apply lookup_app_l_Some.
  - intros t Ht. exists blankTransaction. by rewrite Hnew.
Qed.

Lemma C2_single_pending_witness :
  1 ≤ 3
  ∧ _latestTransaction (run (replicate 3 Dispatch) started).1 = Some 3
  ∧ transactions (run (replicate 3 Dispatch) started).2 !! 3 = Some blankTransaction
  ∧ transactions (run (replicate 3 Dispatch) started).2 !! 0 = transactions started.2 !! 0.
Proof.
  assert (H : 1 ≤ 3) by lia.
  split; [exact H|].
  destruct (C2_single_pending 3 started.1 started.2 H) as (H1 & H2 & _ & H4 & _).
  rewrite <- surjective_pairing in H1, H2, H4.
  split_and!; [exact H1 | exact H2 |].
  destruct (transactions started.2 !! 0) as [tx|] eqn:E; [|discriminate E].
  exact (H4 0 tx E).
Defined.

Lemma sampled_is_false_true ctx :
  sampled_is_false ctx = true ↔ ctx !! "sampled" = Some (JBool false).
Proof.
  unfold sampled_is_false.
  destruct (ctx !! "sampled") as [[| [] | | |]|]; split; congruence.
Qed.

Lemma sampled_is_false_false ctx :
  sampled_is_false ctx = false ↔ ctx !! "sampled" ≠ Some (JBool false).
Proof.
  rewrite <- sampled_is_false_true. destruct (sampled_is_false ctx); split; congruence.
Qed.

Section Decorating.

(** A state change that reaches the inner [if]: a container is registered,
    it shows [route], the transaction [t] is pending, and there is no latest
    route or its key is another one. *)
Variables (s : Instr) (w : World) (c t : nat) (tx : Transaction)
          (route : NavigationRouteV5).
Hypothesis Hcontainer : _navigationContainer s = Some c.
Hypothesis Hpending : _latestTransaction s = Some t.
Hypothesis Htx : transactions w !! t = Some tx.
Hypothesis Hchanged : routeChanged (_latestRoute s) route = true.

Lemma _onStateChange_decorates :
  _onStateChange (Some route) s w
  = let '(s1, w1) := decorate t (_latestRoute s) route s w in
    (set_latestRoute (Some route) (_pushRecentRouteKey (key route) s1), w1).
Proof.
  unfold _onStateChange. rewrite Hcontainer, Hpending, Hchanged. reflexivity.
Qed.

Lemma toContext_pending : toContext t w = tx_context tx.
Proof. unfold toContext. by rewrite Htx. Qed.

(** The hook returned a context. *)
Lemma decorate_returned hook returned :
  _beforeNavigate s = Some hook →
  hook (updatedOf s tx route) = Some returned →
  let sw := _onStateChange (Some route) s w in
  transactions sw.2 !! t
    = Some (mkTx returned (tx_sampled tx) (tx_calls tx ++ [CallUpdateWithContext returned]))
  ∧ hookCalls sw.2 = hookCalls w ++ [(updatedOf s tx route)]
  ∧ _latestTransaction sw.1 = Some t
  ∧ (sampled_is_false returned = true →
       _stateChangeTimeout sw.1 = _stateChangeTimeout s ∧ timers sw.2 = timers w)
  ∧ (sampled_is_false returned = false →
       _stateChangeTimeout sw.1 = None
       ∧ timers sw.2 = match _stateChangeTimeout s with
                       | Some h => delete h (timers w)
                       | None => timers w
                       end).
Proof.
  intros Hhook Hret sw. unfold sw. rewrite _onStateChange_decorates.
  unfold decorate, callBeforeNavigate. rewrite toContext_pending, Hhook.
  fold (updatedOf s tx route). rewrite Hret.
  destruct (sampled_is_false returned) eqn:Es;
    [|destruct (_stateChangeTimeout s) as [h|] eqn:Eh]; simpl;
    rewrite ?list_lookup_alter_eq, ?Htx, ?Eh; simpl; split_and!; try done.
Qed.

(** The hook is missing or returned nothing. *)
Lemma decorate_nothing :
  match _beforeNavigate s with
  | Some hook => hook (updatedOf s tx route) = None
  | None => True
  end →
  let sw := _onStateChange (Some route) s w in
  let final := <["sampled" := JBool false]> (updatedOf s tx route) in
  transactions sw.2 !! t
    = Some (mkTx final (tx_sampled tx) (tx_calls tx ++ [CallUpdateWithContext final]))
  ∧ logged sw.2 = logged w ++ [(LevelError, MsgBeforeNavigateReturnedNothing);
                               (LevelLog, MsgWillNotSend (Some (JStr (name route))))]
  ∧ _stateChangeTimeout sw.1 = _stateChangeTimeout s
  ∧ timers sw.2 = timers w
  ∧ _latestTransaction sw.1 = Some t
  ∧ hookCalls sw.2 = hookCalls w ++ match _beforeNavigate s with
                                    | Some _ => [(updatedOf s tx route)]
                                    | None => []
                                    end.
Proof.
  intros Hret sw final. unfold sw. rewrite _onStateChange_decorates.
  unfold decorate, callBeforeNavigate. rewrite toContext_pending.
  fold (updatedOf s tx route).
  assert (Hs : sampled_is_false final = true).
  { apply sampled_is_false_true. apply lookup_insert_eq. }
  assert (Hn : final !! "name" = Some (JStr (name route))).
  { unfold final, updatedOf, updatedContext.
    rewrite !lookup_insert_ne by done. apply lookup_insert_eq. }
  destruct (_beforeNavigate s) as [hook|]; [rewrite Hret|]; fold final;
    rewrite Hs, Hn; simpl; rewrite list_lookup_alter_eq, Htx, <- ?app_assoc;
    simpl; rewrite ?app_nil_r; split_and!; done.
Qed.

End Decorating.

(** C3. In a state change that decorates the pending transaction, when the
    hook returns a context: if its [sampled] is [false], the handle in
    [_stateChangeTimeout] and the live timers are left as they were and the
    transaction stays pending; otherwise [_stateChangeTimeout] becomes
    undefined and the timer it named is no longer live.  In both cases
    [updateWithContext] is called on the pending transaction with the
    returned context. *)
Theorem C3_veto_semantics (s : Instr) (w : World) (c t : nat) (tx : Transaction)
    (route : NavigationRouteV5)
    (hook : gmap string JsValue → option (gmap string JsValue))
    (returned : gmap string JsValue) :
  _navigationContainer s = Some c →
  _latestTransaction s = Some t →
  transactions w !! t = Some tx →
  routeChanged (_latestRoute s) route = true →
  _beforeNavigate s = Some hook →
  hook (updatedOf s tx route) = Some returned →
  let sw := _onStateChange (Some route) s w in
  (returned !! "sampled" = Some (JBool false) →
     _stateChangeTimeout sw.1 = _stateChangeTimeout s
     ∧ timers sw.2 = timers w
     ∧ _latestTransaction sw.1 = Some t)
  ∧ (returned !! "sampled" ≠ Some (JBool false) →
     _stateChangeTimeout sw.1 = None
     ∧ ∀ h, _stateChangeTimeout s = Some h →
            timers sw.2 = delete h (timers w) ∧ timers sw.2 !! h = None)
  ∧ transactions sw.2 !! t
    = Some (mkTx returned (tx_sampled tx) (tx_calls tx ++ [CallUpdateWithContext returned])).
Proof.
  intros Hc Hp Htx Hch Hhook Hret sw.
  destruct (decorate_returned s w c t tx route Hc Hp Htx Hch hook returned Hhook Hret)
    as (Happlied & _ & Hlatest & Hveto & Hkeep).
  fold sw in Happlied, Hlatest, Hveto, Hkeep.
  split_and!.
  - intros Hs%sampled_is_false_true. destruct (Hveto Hs). done.
  - intros Hs%sampled_is_false_false. destruct (Hkeep Hs) as [H1 H2].
    split; [exact H1|]. intros h Hh. rewrite Hh in H2. rewrite H2.
    split; [reflexivity | apply lookup_delete_eq].
  - exact Happlied.
Qed.

(** C5. In a state change that decorates the pending transaction, when the
    hook is missing or returns no context: an error is logged,
    [updateWithContext] is called on the pending transaction with the
    updated context in which [sampled] is [false] (every other field as in
    the updated context), so the applied context has [sampled] decided, and
    neither [_stateChangeTimeout] nor the live timers change. *)
Theorem C5_hook_returns_nothing (s : Instr) (w : World) (c t : nat) (tx : Transaction)
    (route : NavigationRouteV5) :
  _navigationContainer s = Some c →
  _latestTransaction s = Some t →
  transactions w !! t = Some tx →
  routeChanged (_latestRoute s) route = true →
  match _beforeNavigate s with
  | Some hook => hook (updatedOf s tx route) = None
  | None => True
  end →
  let sw := _onStateChange (Some route) s w in
  let applied := <["sampled" := JBool false]> (updatedOf s tx route) in
  logged sw.2 = logged w ++ [(LevelError, MsgBeforeNavigateReturnedNothing);
                             (LevelLog, MsgWillNotSend (Some (JStr (name route))))]
  ∧ transactions sw.2 !! t
    = Some (mkTx applied (tx_sampled tx) (tx_calls tx ++ [CallUpdateWithContext applied]))
  ∧ applied !! "sampled" = Some (JBool false)
  ∧ (∀ k, k ≠ "sampled" → applied !! k = updatedOf s tx route !! k)
  ∧ _stateChangeTimeout sw.1 = _stateChangeTimeout s
  ∧ timers sw.2 = timers w
  ∧ _latestTransaction sw.1 = Some t.
Proof.
  intros Hc Hp Htx Hch Hret sw applied.
  destruct (decorate_nothing s w c t tx route Hc Hp Htx Hch Hret)
    as (Happlied & Hlog & Hhandle & Htimers & Hlatest & _).
  split_and!; try done.
  - apply lookup_insert_eq.
  - intros k Hk. unfold applied. by rewrite lookup_insert_ne.
Qed.

Lemma includes_bool_decide k keys : includes k keys = bool_decide (k ∈ keys).
Proof.
  destruct (includes k keys) eqn:E; symmetry.
  - apply bool_decide_eq_true. by apply includes_elem_of.
  - apply bool_decide_eq_false. rewrite <- includes_elem_of. congruence.
Qed.

(** C6. In a state change that decorates the pending transaction, the
    context handed to the hook extends the snapshot [toContext()] of the
    pending transaction: every field of the snapshot is still there, all
    but [name], [tags] and [data] with the value they had; [name] is the
    route's name; [tags] is the snapshot's tags plus [routing.route.name];
    [data] is the snapshot's data plus [route] (name, key, params or the
    empty object, hasBeenSeen = the key is in the ledger) and
    [previousRoute] (name, key, params or the empty object of the latest
    route, or null when there was none).  Whatever object [m] the snapshot
    has under [tags] (under [data]), every other entry of [m] is in the new
    [tags] (the new [data]) unchanged and nothing else is; a snapshot
    without [tags] (without [data]), or with null, a boolean or a number
    there, contributes no entry. *)
Theorem C6_updated_context_extends (s : Instr) (w : World) (c t : nat) (tx : Transaction)
    (route : NavigationRouteV5)
    (hook : gmap string JsValue → option (gmap string JsValue)) :
  _navigationContainer s = Some c →
  _latestTransaction s = Some t →
  transactions w !! t = Some tx →
  routeChanged (_latestRoute s) route = true →
  _beforeNavigate s = Some hook →
  let sw := _onStateChange (Some route) s w in
  let original := tx_context tx in
  ∃ (updated tags data : gmap string JsValue),
    hookCalls sw.2 = hookCalls w ++ [updated]
    ∧ (∀ k, is_Some (original !! k) → is_Some (updated !! k))
    ∧ (∀ k, k ≠ "name" → k ≠ "tags" → k ≠ "data" → updated !! k = original !! k)
    ∧ updated !! "name" = Some (JStr (name route))
    ∧ updated !! "tags" = Some (JObj tags)
    ∧ tags !! "routing.route.name" = Some (JStr (name route))
    ∧ (∀ m, original !! "tags" = Some (JObj m) →
         ∀ k, k ≠ "routing.route.name" → tags !! k = m !! k)
    ∧ (∀ k, k ≠ "routing.route.name" →
         match original !! "tags" with
         | Some (JObj _) | Some (JStr _) => True
         | _ => tags !! k = None
         end)
    ∧ updated !! "data" = Some (JObj data)
    ∧ (∀ m, original !! "data" = Some (JObj m) →
         ∀ k, k ≠ "route" → k ≠ "previousRoute" → data !! k = m !! k)
    ∧ (∀ k, k ≠ "route" → k ≠ "previousRoute" →
         match original !! "data" with
         | Some (JObj _) | Some (JStr _) => True
         | _ => data !! k = None
         end)
    ∧ data !! "route"
      = Some (JObj (list_to_map
                      [("name", JStr (name route));
                       ("key", JStr (key route));
                       ("params", JObj (default ∅ (params route)));
                       ("hasBeenSeen",
                        JBool (bool_decide (key route ∈ _recentRouteKeys s)))]))
    ∧ data !! "previousRoute"
      = Some (match _latestRoute s with
              | Some p => JObj (list_to_map
                                  [("name", JStr (name p));
                                   ("key", JStr (key p));
                                   ("params", JObj (default ∅ (params p)))])
              | None => JNull
              end).
Proof.
  intros Hc Hp Htx Hch Hhook sw original.
  assert (Hcalls : hookCalls sw.2 = hookCalls w ++ [updatedOf s tx route]).
  { destruct (hook (updatedOf s tx route)) as [returned|] eqn:Hret.
    - by destruct (decorate_returned s w c t tx route Hc Hp Htx Hch hook returned Hhook Hret)
        as (_ & H & _).
    - assert (Hnone : match _beforeNavigate s with
                      | Some hook => hook (updatedOf s tx route) = None
                      | None => True
                      end) by (by rewrite Hhook).
      destruct (decorate_nothing s w c t tx route Hc Hp Htx Hch Hnone)
        as (_ & _ & _ & _ & _ & H).
      by rewrite Hhook in H. }
  eexists (updatedOf s tx route), _, _.
  unfold updatedOf, updatedContext. fold original.
  split_and!.
  - exact Hcalls.
  - intros k Hk.
    destruct (decide (k = "data")) as [->|?]; [rewrite lookup_insert_eq; eauto|].
    rewrite lookup_insert_ne by done.
    destruct (decide (k = "tags")) as [->|?]; [rewrite lookup_insert_eq; eauto|].
    rewrite lookup_insert_ne by done.
    destruct (decide (k = "name")) as [->|?]; [rewrite lookup_insert_eq; eauto|].
    by rewrite lookup_insert_ne.
  - intros k ???. by rewrite !lookup_insert_ne.
  - rewrite !lookup_insert_ne by done. apply lookup_insert_eq.
  - rewrite lookup_insert_ne by done. apply lookup_insert_eq.
  - apply lookup_insert_eq.
  - intros m Hm k ?. by rewrite lookup_insert_ne, Hm.
  - intros k ?. rewrite lookup_insert_ne by done.
    by destruct (original !! "tags") as [[]|].
  - apply lookup_insert_eq.
  - intros m Hm k ??. by rewrite !lookup_insert_ne, Hm.
  - intros k ??. rewrite !lookup_insert_ne by done.
    by destruct (original !! "data") as [[]|].
  - rewrite lookup_insert_ne by done. rewrite lookup_insert_eq.
    unfold routeData. rewrite includes_bool_decide. by destruct (params route).
  - rewrite lookup_insert_eq. unfold previousRouteData.
    destruct (_latestRoute s) as [p|]; [|done]. by destruct (params p).
Qed.

Lemma routeChanged_same_key p route :
  key p = key route → routeChanged (Some p) route = false.
Proof. intros H. unfold routeChanged. rewrite H, String.eqb_refl. reflexivity. Qed.

(** A state change for the key of the latest route only records the key
    and remembers the route. *)
Lemma _onStateChange_same_key s w c p route :
  _navigationContainer s = Some c →
  _latestRoute s = Some p →
  key p = key route →
  _onStateChange (Some route) s w
  = (set_latestRoute (Some route) (_pushRecentRouteKey (key route) s), w).
Proof.
  intros Hc Hp Hk. unfold _onStateChange.
  rewrite Hc, Hp, (routeChanged_same_key _ _ Hk).
  by destruct (_latestTransaction s).
Qed.

Lemma pushRecentRouteKey_includes k keys :
  includes k (pushRecentRouteKey k keys) = true.
Proof.
  apply includes_elem_of. rewrite pushRecentRouteKey_drop.
  rewrite drop_app_le by (rewrite length_app; simpl; unfold _maxRecentRouteLen; lia).
  apply elem_of_app. right. apply list_elem_of_here.
Qed.

(** C4. A state change that finds a route (a container being registered)
    records the route's key in the ledger and makes the route the latest
    one, whether or not the decoration ran.  When the route's key is the key
    of the latest route, nothing else happens: the hook is not called, no
    transaction is touched (the world is left as it was), and the instance
    changes in its ledger and latest route only. *)
Theorem C4_route_change_gating (s : Instr) (w : World) (c : nat)
    (route : NavigationRouteV5) :
  _navigationContainer s = Some c →
  let sw := _onStateChange (Some route) s w in
  (_recentRouteKeys sw.1 = pushRecentRouteKey (key route) (_recentRouteKeys s)
   ∧ includes (key route) (_recentRouteKeys sw.1) = true
   ∧ _latestRoute sw.1 = Some route)
  ∧ (∀ p, _latestRoute s = Some p → key p = key route →
       hookCalls sw.2 = hookCalls w
       ∧ transactions sw.2 = transactions w
       ∧ sw.2 = w
       ∧ sw.1 = set_latestRoute (Some route) (_pushRecentRouteKey (key route) s)).
Proof.
  intros Hc sw. split.
  - pose proof (_onStateChange_ledger (Some route) s w) as L.
    cbv zeta in L. rewrite Hc in L. fold sw in L. destruct L as [L1 L2].
    split_and!; [exact L1 | | exact L2].
    rewrite L1. apply pushRecentRouteKey_includes.
  - intros p Hp Hk. unfold sw.
    rewrite (_onStateChange_same_key s w c p route Hc Hp Hk). done.
Qed.

(** C10. A state change for the key of the latest route clears no timer:
    the live timers, [_stateChangeTimeout] and the pending transaction are
    as before.  So after a dispatch followed only by such a state change,
    the timer of that dispatch is still live, and when it fires the
    transaction of that dispatch gets [sampled] false and is finished. *)
Theorem C10_same_key_keeps_timer (s : Instr) (w : World) (c : nat)
    (p route : NavigationRouteV5) :
  _navigationContainer s = Some c →
  _latestRoute s = Some p →
  key p = key route →
  (let sw := _onStateChange (Some route) s w in
   timers sw.2 = timers w
   ∧ _stateChangeTimeout sw.1 = _stateChangeTimeout s
   ∧ _latestTransaction sw.1 = _latestTransaction s)
  ∧ (let t := length (transactions w) in
     let h := nextTimer w in
     let sw1 := _onDispatch s w in
     let sw2 := _onStateChange (Some route) sw1.1 sw1.2 in
     let sw3 := fireTimer h sw2.1 sw2.2 in
     _latestTransaction sw1.1 = Some t
     ∧ _stateChangeTimeout sw1.1 = Some h
     ∧ timers sw2.2 !! h
       = Some (CallbackDiscardLatestTransaction, routeChangeTimeoutMs (_options s))
     ∧ _stateChangeTimeout sw2.1 = Some h
     ∧ transactions sw2.2 !! t = Some blankTransaction
     ∧ transactions sw3.2 !! t
       = Some (mkTx BLANK_TRANSACTION_CONTEXT_V5 (Some false) [CallFinish])
     ∧ _latestTransaction sw3.1 = None).
Proof.
  intros Hc Hp Hk. split.
  - intros sw. unfold sw. rewrite (_onStateChange_same_key s w c p route Hc Hp Hk). done.
  - intros t h sw1 sw2 sw3.
    assert (E2 : sw2 = (set_latestRoute (Some route)
                          (_pushRecentRouteKey (key route) sw1.1), sw1.2)).
    { unfold sw2. by apply (_onStateChange_same_key _ _ c p). }
    assert (Hlive : timers sw1.2 !! h
              = Some (CallbackDiscardLatestTransaction, routeChangeTimeoutMs (_options s))).
    { simpl. apply lookup_insert_eq. }
    assert (Hnew : transactions sw1.2 !! t = Some blankTransaction).
    { simpl. unfold t. by rewrite list_lookup_middle. }
    unfold sw3. rewrite E2. simpl fst. simpl snd.
    split_and!; try done.
    + unfold fireTimer. simpl. unfold h. rewrite lookup_insert_eq. simpl.
      rewrite !list_lookup_alter_eq. unfold t.
      by rewrite list_lookup_middle.
    + unfold fireTimer. simpl. unfold h. by rewrite lookup_insert_eq.
Qed.

(** What [registerNavigationContainer] does, case by case: with the flag
    set it only logs; with the flag unset, an object ref without a
    container gets the warning and the flag stays unset, a ref with a
    container gets the two listeners and the flag, and a ref that is no
    object makes the call throw. *)
Lemma registerNavigationContainer_cases (s : Instr) (w : World)
    (ref : NavigationContainerRef) (current : option NavigationRouteV5) :
  (__sentry_rn_v5_registered w = true →
     ∃ w', registerNavigationContainer ref current s w = Returns (s, w')
           ∧ logged w' = logged w ++ [(LevelLog, MsgAlreadyRegistered)]
           ∧ listeners w' = listeners w
           ∧ __sentry_rn_v5_registered w' = true)
  ∧ (__sentry_rn_v5_registered w = false → ref = RefObject None →
     ∃ w', registerNavigationContainer ref current s w
           = Returns (set_navigationContainer None s, w')
           ∧ logged w' = logged w ++ [(LevelWarn, MsgInvalidContainerRef)]
           ∧ listeners w' = listeners w
           ∧ __sentry_rn_v5_registered w' = false)
  ∧ (∀ c, __sentry_rn_v5_registered w = false →
     ref = RefObject (Some c) ∨ ref = ContainerItself c →
     ∃ sw, registerNavigationContainer ref current s w = Returns sw
           ∧ listeners sw.2 = listeners w ++ registeredListeners c
           ∧ __sentry_rn_v5_registered sw.2 = true
           ∧ _navigationContainer sw.1 = Some c)
  ∧ (__sentry_rn_v5_registered w = false → ref = NotAnObject →
     registerNavigationContainer ref current s w = ThrowsTypeError).
Proof.
  unfold registerNavigationContainer. split_and!.
  - intros H. rewrite H. simpl. eexists. split; [reflexivity|]. by split_and!.
  - intros H ->. rewrite H. simpl. unfold registerResolved. simpl.
    eexists. split; [reflexivity|]. by split_and!.
  - intros c H Href. rewrite H. simpl.
    assert (E : match ref with
                | RefObject c0 => Returns (registerResolved c0 current s w)
                | ContainerItself c0 => Returns (registerResolved (Some c0) current s w)
                | NotAnObject => ThrowsTypeError
                end = Returns (registerResolved (Some c) current s w))
      by (by destruct Href as [-> | ->]).
    rewrite E. eexists. split; [reflexivity|].
    unfold registerResolved. cbv zeta. simpl.
    destruct (_initialStateHandled s); simpl.
    + rewrite <- app_assoc. done.
    + destruct (_latestTransaction s); simpl.
      * pose proof (_onStateChange_listeners current
                      (set_navigationContainer (Some c) s)
                      (addListener c "state" HandlerOnStateChange
                         (addListener c "__unsafe_action__" HandlerOnDispatch w))) as HL.
        pose proof (_onStateChange_container current
                      (set_navigationContainer (Some c) s)
                      (addListener c "state" HandlerOnStateChange
                         (addListener c "__unsafe_action__" HandlerOnDispatch w))) as HC.
        destruct (_onStateChange _ _ _) as [s2 w']. simpl in HL, HC. simpl.
        rewrite HL, HC, <- app_assoc. done.
      * rewrite <- app_assoc. done.
  - intros H ->. by rewrite H.
Qed.

(** C9 (the code departs from the claim). With the flag unset, a ref that
    is no object ([null], [undefined], a primitive) makes
    [registerNavigationContainer] throw at the test
    ["current" in navigationContainerRef]: no warning is logged and the
    call does not return, where the claim has it log a warning and return.
    On the same new instance a ref object whose [current] is [null] does
    get the warning on the log, with no listener attached and the flag
    left unset; and with the flag set even a ref that is no object only
    gets the log entry. *)
Theorem C9_registration_throws_without_object :
  (∀ current s w,
     registerNavigationContainer NotAnObject current s w
     = if __sentry_rn_v5_registered w
       then Returns (s, log LevelLog MsgAlreadyRegistered w)
       else ThrowsTypeError)
  ∧ registerNavigationContainer NotAnObject None (constructor None) emptyWorld
    = ThrowsTypeError
  ∧ logged (step (RegisterNavigationContainer NotAnObject None)
              (constructor None, emptyWorld)).2 = []
  ∧ (∃ w', registerNavigationContainer (RefObject None) None (constructor None) emptyWorld
           = Returns (constructor None, w')
           ∧ logged w' = [(LevelWarn, MsgInvalidContainerRef)]
           ∧ listeners w' = []
           ∧ __sentry_rn_v5_registered w' = false).
Proof.
  split_and!.
  - intros current s w. unfold registerNavigationContainer.
    by destruct (__sentry_rn_v5_registered w).
  - reflexivity.
  - reflexivity.
  - eexists. split; [reflexivity|]. by split_and!.
Qed.

(** C1 (the code departs from the claim). After two dispatches in a row two
    discard timers are live, because [_onDispatch] replaces the handle in
    [_stateChangeTimeout] without clearing the timer it named.  A state
    change for a new route then decorates the pending transaction and
    clears the newer timer only; the older timer is still live, and when it
    fires it sets [sampled] to false on, and finishes, the transaction that
    was just decorated. *)
Theorem C1_stale_timer_discards_decorated :
  let sw2 := run [Dispatch; Dispatch] started in
  let sw3 := run [StateChange (Some routeB)] sw2 in
  let sw4 := run [TimerFires 2] sw3 in
  size (timers started.2) = 0
  ∧ size (timers sw2.2) = 2
  ∧ _latestTransaction sw2.1 = Some 2
  ∧ _stateChangeTimeout sw2.1 = Some 3
  ∧ _stateChangeTimeout sw3.1 = None
  ∧ timers sw3.2 !! 3 = None
  ∧ timers sw3.2 !! 2 = Some (CallbackDiscardLatestTransaction, 1000%Z)
  ∧ _latestTransaction sw3.1 = Some 2
  ∧ (tx_context <$> transactions sw3.2 !! 2) = Some (updatedOf sw2.1 blankTransaction routeB)
  ∧ (tx_sampled <$> transactions sw3.2 !! 2) = Some None
  ∧ (tx_finished <$> transactions sw3.2 !! 2) = Some false
  ∧ (tx_context <$> transactions sw4.2 !! 2) = Some (updatedOf sw2.1 blankTransaction routeB)
  ∧ (tx_sampled <$> transactions sw4.2 !! 2) = Some (Some false)
  ∧ (tx_finished <$> transactions sw4.2 !! 2) = Some true.
Proof. vm_compute. split_and!; reflexivity. Qed.

Lemma C3_veto_semantics_witness :
  let updated := updatedOf awaiting.1 blankTransaction routeB in
  let vetoed := <["sampled" := JBool false]> updated in
  let kept := _onStateChange (Some routeB) awaiting.1 awaiting.2 in
  let veto := _onStateChange (Some routeB) (awaitingWith vetoContext).1
                             (awaitingWith vetoContext).2 in
  (_navigationContainer awaiting.1 = Some 0
   ∧ _latestTransaction awaiting.1 = Some 1
   ∧ transactions awaiting.2 !! 1 = Some blankTransaction
   ∧ routeChanged (_latestRoute awaiting.1) routeB = true
   ∧ _beforeNavigate awaiting.1 = Some keepContext
   ∧ keepContext updated = Some updated)
  ∧ (_stateChangeTimeout awaiting.1 = Some 2
     ∧ _stateChangeTimeout kept.1 = None
     ∧ timers kept.2 !! 2 = None
     ∧ transactions kept.2 !! 1
       = Some (mkTx updated None [CallUpdateWithContext updated]))
  ∧ (_stateChangeTimeout veto.1 = Some 2
     ∧ timers veto.2 = timers (awaitingWith vetoContext).2
     ∧ transactions veto.2 !! 1
       = Some (mkTx vetoed None [CallUpdateWithContext vetoed])).
Proof.
  intros updated vetoed kept veto.
  assert (H1 : _navigationContainer awaiting.1 = Some 0) by reflexivity.
  assert (H2 : _latestTransaction awaiting.1 = Some 1) by reflexivity.
  assert (H3 : transactions awaiting.2 !! 1 = Some blankTransaction) by reflexivity.
  assert (H4 : routeChanged (_latestRoute awaiting.1) routeB = true) by reflexivity.
  assert (H5 : _beforeNavigate awaiting.1 = Some keepContext) by reflexivity.
  assert (H6 : keepContext updated = Some updated) by reflexivity.
  assert (V1 : _navigationContainer (awaitingWith vetoContext).1 = Some 0) by reflexivity.
  assert (V2 : _latestTransaction (awaitingWith vetoContext).1 = Some 1) by reflexivity.
  assert (V3 : transactions (awaitingWith vetoContext).2 !! 1 = Some blankTransaction)
    by reflexivity.
  assert (V4 : routeChanged (_latestRoute (awaitingWith vetoContext).1) routeB = true)
    by reflexivity.
  assert (V5 : _beforeNavigate (awaitingWith vetoContext).1 = Some vetoContext)
    by reflexivity.
  assert (V6 : vetoContext (updatedOf (awaitingWith vetoContext).1 blankTransaction routeB)
               = Some vetoed) by reflexivity.
  split; [by split_and! | split].
  - destruct (C3_veto_semantics awaiting.1 awaiting.2 0 1 blankTransaction routeB
                keepContext updated H1 H2 H3 H4 H5 H6) as (_ & Hkeep & Happlied).
    destruct Hkeep as [Hhandle Htimer]; [vm_compute; discriminate|].
    destruct (Htimer 2 eq_refl) as [_ Hgone].
    split_and!; [reflexivity | exact Hhandle | exact Hgone | exact Happlied].
  - destruct (C3_veto_semantics (awaitingWith vetoContext).1 (awaitingWith vetoContext).2
                0 1 blankTransaction routeB vetoContext vetoed V1 V2 V3 V4 V5 V6)
      as (Hveto & _ & Happlied).
    destruct Hveto as (Hhandle & Htimers & _); [apply lookup_insert_eq|].
    split_and!; [exact Hhandle | exact Htimers | exact Happlied].
Defined.

Lemma C5_hook_returns_nothing_witness :
  let s := (awaitingWith returnNothing).1 in
  let w := (awaitingWith returnNothing).2 in
  let applied := <["sampled" := JBool false]> (updatedOf s blankTransaction routeB) in
  let sw := _onStateChange (Some routeB) s w in
  (_navigationContainer s = Some 0
   ∧ _latestTransaction s = Some 1
   ∧ transactions w !! 1 = Some blankTransaction
   ∧ routeChanged (_latestRoute s) routeB = true
   ∧ _beforeNavigate s = Some returnNothing
   ∧ returnNothing (updatedOf s blankTransaction routeB) = None)
  ∧ transactions sw.2 !! 1 = Some (mkTx applied None [CallUpdateWithContext applied])
  ∧ applied !! "sampled" = Some (JBool false)
  ∧ _stateChangeTimeout sw.1 = Some 2
  ∧ timers sw.2 = timers w.
Proof.
  intros s w applied sw.
  assert (H1 : _navigationContainer s = Some 0) by reflexivity.
  assert (H2 : _latestTransaction s = Some 1) by reflexivity.
  assert (H3 : transactions w !! 1 = Some blankTransaction) by reflexivity.
  assert (H4 : routeChanged (_latestRoute s) routeB = true) by reflexivity.
  assert (H5 : match _beforeNavigate s with
               | Some hook => hook (updatedOf s blankTransaction routeB) = None
               | None => True
               end) by reflexivity.
  split; [by split_and!|].
  destruct (C5_hook_returns_nothing s w 0 1 blankTransaction routeB H1 H2 H3 H4 H5)
    as (_ & Happlied & Hsampled & _ & Hhandle & Htimers & _).
  split_and!; [exact Happlied | exact Hsampled | exact Hhandle | exact Htimers].
Defined.

Lemma C6_updated_context_extends_witness :
  let sw := _onStateChange (Some routeB) awaiting.1 awaiting.2 in
  (_navigationContainer awaiting.1 = Some 0
   ∧ _latestTransaction awaiting.1 = Some 1
   ∧ transactions awaiting.2 !! 1 = Some blankTransaction
   ∧ routeChanged (_latestRoute awaiting.1) routeB = true
   ∧ _beforeNavigate awaiting.1 = Some keepContext
   ∧ tx_context blankTransaction !! "tags"
     = Some (JObj (<["routing.instrumentation" := JStr instrumentationName]> ∅))
   ∧ tx_context blankTransaction !! "data" = Some (JObj ∅))
  ∧ ∃ updated tags data,
      last (hookCalls sw.2) = Some updated
      ∧ updated !! "name" = Some (JStr "B")
      ∧ updated !! "op" = Some (JStr "navigation")
      ∧ updated !! "tags" = Some (JObj tags)
      ∧ tags !! "routing.route.name" = Some (JStr "B")
      ∧ tags !! "routing.instrumentation" = Some (JStr "react-navigation-v5")
      ∧ updated !! "data" = Some (JObj data)
      ∧ data !! "somethingElse" = None.
Proof.
  intros sw.
  assert (H1 : _navigationContainer awaiting.1 = Some 0) by reflexivity.
  assert (H2 : _latestTransaction awaiting.1 = Some 1) by reflexivity.
  assert (H3 : transactions awaiting.2 !! 1 = Some blankTransaction) by reflexivity.
  assert (H4 : routeChanged (_latestRoute awaiting.1) routeB = true) by reflexivity.
  assert (H5 : _beforeNavigate awaiting.1 = Some keepContext) by reflexivity.
  assert (H6 : tx_context blankTransaction !! "tags"
               = Some (JObj (<["routing.instrumentation" := JStr instrumentationName]> ∅)))
    by reflexivity.
  assert (H7 : tx_context blankTransaction !! "data" = Some (JObj ∅)) by reflexivity.
  split; [by split_and!|].
  destruct (C6_updated_context_extends awaiting.1 awaiting.2 0 1 blankTransaction routeB
              keepContext H1 H2 H3 H4 H5)
    as (updated & tags & data & Hcalls & _ & Hrest & Hname & Htags & Htag & Hkept & _
        & Hdata & Hdkept & _).
  exists updated, tags, data. split_and!.
  - fold sw in Hcalls. rewrite Hcalls. apply last_snoc.
  - exact Hname.
  - rewrite Hrest by done. reflexivity.
  - exact Htags.
  - exact Htag.
  - rewrite (Hkept _ H6) by done. reflexivity.
  - exact Hdata.
  - rewrite (Hdkept _ H7) by done. reflexivity.
Defined.

Lemma C4_route_change_gating_witness :
  let sw := _onStateChange (Some routeA) awaiting.1 awaiting.2 in
  (_navigationContainer awaiting.1 = Some 0
   ∧ _latestRoute awaiting.1 = Some routeA)
  ∧ _recentRouteKeys sw.1 = ["k1"; "k1"]
  ∧ _latestRoute sw.1 = Some routeA
  ∧ sw.2 = awaiting.2.
Proof.
  intros sw.
  assert (H1 : _navigationContainer awaiting.1 = Some 0) by reflexivity.
  assert (H2 : _latestRoute awaiting.1 = Some routeA) by reflexivity.
  split; [by split_and!|].
  destruct (C4_route_change_gating awaiting.1 awaiting.2 0 routeA H1)
    as ((Hkeys & _ & Hlatest) & Hsame).
  destruct (Hsame routeA H2 eq_refl) as (_ & _ & Hworld & _).
  split_and!; [exact Hkeys | exact Hlatest | exact Hworld].
Defined.

Lemma C10_same_key_keeps_timer_witness :
  let sw1 := _onDispatch started.1 started.2 in
  let sw2 := _onStateChange (Some routeA) sw1.1 sw1.2 in
  let sw3 := fireTimer 2 sw2.1 sw2.2 in
  (_navigationContainer started.1 = Some 0
   ∧ _latestRoute started.1 = Some routeA
   ∧ key routeA = key routeA)
  ∧ timers sw2.2 !! 2 = Some (CallbackDiscardLatestTransaction, 1000%Z)
  ∧ transactions sw3.2 !! 1
    = Some (mkTx BLANK_TRANSACTION_CONTEXT_V5 (Some false) [CallFinish]).
Proof.
  intros sw1 sw2 sw3.
  assert (H1 : _navigationContainer started.1 = Some 0) by reflexivity.
  assert (H2 : _latestRoute started.1 = Some routeA) by reflexivity.
  assert (H3 : key routeA = key routeA) by reflexivity.
  split; [by split_and!|].
  destruct (C10_same_key_keeps_timer started.1 started.2 0 routeA routeA H1 H2 H3)
    as (_ & _ & _ & Hlive & _ & _ & Hdiscarded & _).
  split; [exact Hlive | exact Hdiscarded].
Defined.

(** * Further properties of the handlers *)

(** ** Preservation along runs *)

Lemma run_preserves (P : Instr * World → Prop) :
  (∀ e sw, P sw → P (step e sw)) →
  ∀ es sw, P sw → P (run es sw).
Proof.
  intros Hstep es. induction es as [|e es IH]; intros sw H; simpl; [done|].
  apply IH. by apply Hstep.
Qed.

Lemma run_app es1 es2 sw : run (es1 ++ es2) sw = run es2 (run es1 sw).
Proof. unfold run. apply foldl_app. Qed.

(** A property of the pending transaction, the options, the store and the
    timers that the three handlers keep is kept by every event. *)
Lemma step_preserves (P : Instr * World → Prop) :
  (∀ sw sw', sameCore sw sw' → P sw → P sw') →
  (∀ s w, P (s, w) → P (_onDispatch s w)) →
  (∀ cur s w, P (s, w) → P (_onStateChange cur s w)) →
  (∀ h s w, P (s, w) → P (fireTimer h s w)) →
  ∀ e sw, P sw → P (step e sw).
Proof.
  intros Hcore Hd Hsc Hft e [s w] H. destruct e; simpl.
  - unfold registerRoutingInstrumentation.
    assert (H0 : P (set_beforeNavigate (Some beforeNavigate) s, w))
      by (by apply (Hcore (s, w))).
    destruct (negb (_initialStateHandled (set_beforeNavigate (Some beforeNavigate) s)));
      [|done].
    apply Hd in H0.
    destruct (_onDispatch (set_beforeNavigate (Some beforeNavigate) s) w) as [s1 w1].
    destruct (_navigationContainer s1); [|done].
    apply (Hsc current) in H0.
    destruct (_onStateChange current s1 w1) as [s2 w2].
    by apply (Hcore (s2, w2)).
  - unfold registerNavigationContainer.
    destruct (negb (__sentry_rn_v5_registered w)); [|by apply (Hcore (s, w))].
    assert (Hres : ∀ c, P (registerResolved c current s w)).
    { intros c. unfold registerResolved. cbv zeta.
      set (s1 := set_navigationContainer c s).
      assert (H1 : P (s1, w)) by (by apply (Hcore (s, w))).
      destruct (_navigationContainer s1) as [c'|]; [|by apply (Hcore (s1, w))].
      set (w2 := addListener c' "state" HandlerOnStateChange
                   (addListener c' "__unsafe_action__" HandlerOnDispatch w)).
      assert (H2 : P (s1, w2)) by (by apply (Hcore (s1, w))).
      destruct (negb (_initialStateHandled s1)).
      + destruct (_latestTransaction s1) eqn:El.
        * apply (Hsc current) in H2.
          destruct (_onStateChange current s1 w2) as [s2 w3].
          by apply (Hcore (s2, w3)).
        * by apply (Hcore (s1, w2)).
      + by apply (Hcore (s1, w2)). }
    destruct ref; [apply Hres.. | exact H].
  - by apply Hd.
  - by apply Hsc.
  - by apply Hft.
Qed.

(** ** State changes and the ledger *)

Lemma recordAll_cons_drop k ks keys :
  recordAll (k :: ks) keys
  = drop (length (keys ++ k :: ks) - _maxRecentRouteLen) (keys ++ k :: ks).
Proof.
  change (recordAll (k :: ks) keys) with (recordAll ks (pushRecentRouteKey k keys)).
  rewrite recordAll_drop by apply pushRecentRouteKey_length.
  rewrite pushRecentRouteKey_drop.
  set (m := keys ++ [k]).
  replace (keys ++ k :: ks) with (m ++ ks)
    by (unfold m; rewrite <- app_assoc; reflexivity).
  set (d := length m - _maxRecentRouteLen).
  assert (Hd : d ≤ length m) by (unfold d; lia).
  rewrite <- (drop_app_le m ks d Hd), drop_drop.
  f_equal. rewrite length_drop. unfold d. rewrite !length_app. lia.
Qed.

Lemma run_stateChanges rs : ∀ s w c,
  _navigationContainer s = Some c →
  let sw := run (stateChanges rs) (s, w) in
  _recentRouteKeys sw.1 = recordAll (key <$> rs) (_recentRouteKeys s)
  ∧ _latestRoute sw.1 = from_option Some (_latestRoute s) (last rs)
  ∧ _navigationContainer sw.1 = Some c.
Proof.
  induction rs as [|r rs IH]; intros s w c Hc; simpl; [done|].
  pose proof (_onStateChange_ledger (Some r) s w) as L. cbv zeta in L.
  rewrite Hc in L. destruct L as [L1 L2].
  pose proof (_onStateChange_container (Some r) s w) as C. rewrite Hc in C.
  destruct (_onStateChange (Some r) s w) as [s1 w1]. simpl in L1, L2, C.
  destruct (IH s1 w1 c C) as (I1 & I2 & I3). fold (stateChanges rs).
  rewrite I1, I2, I3, L1, L2. split_and!; try done.
  destruct rs as [|r' rs']; [done|].
  change (last (r :: r' :: rs')) with (last (r' :: rs')).
  destruct (last (r' :: rs')) eqn:E; [done|]. by apply last_None in E.
Qed.

(** X5. State changes, whatever the container answers and whether or not
    a container is registered, never replace or clear the pending
    transaction, create no transaction, arm no timer, attach no listener
    and leave the registration flag alone; the only thing they can do to
    a timer is clear it. *)
Theorem X5_state_changes_frame (currents : list (option NavigationRouteV5))
    (s : Instr) (w : World) :
  let sw := run (StateChange <$> currents) (s, w) in
  _latestTransaction sw.1 = _latestTransaction s
  ∧ length (transactions sw.2) = length (transactions w)
  ∧ nextTimer sw.2 = nextTimer w
  ∧ dom (timers sw.2) ⊆ dom (timers w)
  ∧ listeners sw.2 = listeners w
  ∧ __sentry_rn_v5_registered sw.2 = __sentry_rn_v5_registered w
  ∧ _navigationContainer sw.1 = _navigationContainer s.
Proof.
  revert s w. induction currents as [|cur rest IH]; intros s w.
  - simpl. split_and!; done.
  - cbv zeta.
    change (run (StateChange <$> cur :: rest) (s, w))
      with (run (StateChange <$> rest) (_onStateChange cur s w)).
    destruct (_onStateChange_pending cur s w) as (E1 & E2 & E3 & E4).
    pose proof (_onStateChange_listeners cur s w) as E5.
    pose proof (_onStateChange_registered cur s w) as E6.
    pose proof (_onStateChange_container cur s w) as E7.
    destruct (_onStateChange cur s w) as [s1 w1]. simpl in E1, E2, E3, E4, E5, E6, E7.
    destruct (IH s1 w1) as (I1 & I2 & I3 & I4 & I5 & I6 & I7).
    rewrite I1, I2, I3, I5, I6, I7. split_and!; try done.
    etrans; [exact I4 | exact E4].
Qed.

(** X6. With a container registered, every state change that finds a route
    records the route's key, re-fires for the same route included: after a
    list of them the ledger is what recording their keys in order gives,
    and the latest route is the last route of the list. *)
Theorem X6_state_changes_record (rs : list NavigationRouteV5)
    (s : Instr) (w : World) (c : nat) :
  _navigationContainer s = Some c →
  let sw := run (stateChanges rs) (s, w) in
  _recentRouteKeys sw.1 = recordAll (key <$> rs) (_recentRouteKeys s)
  ∧ (∀ r rs', rs = rs' ++ [r] → _latestRoute sw.1 = Some r)
  ∧ (∀ r rs', rs = r :: rs' →
       _recentRouteKeys sw.1
       = drop (length (_recentRouteKeys s ++ (key <$> rs)) - 200)
              (_recentRouteKeys s ++ (key <$> rs))).
Proof.
  intros Hc sw. destruct (run_stateChanges rs s w c Hc) as (H1 & H2 & _).
  fold sw in H1, H2. split_and!.
  - exact H1.
  - intros r rs' ->. rewrite H2, last_snoc. reflexivity.
  - intros r rs' ->. rewrite H1. simpl. apply recordAll_cons_drop.
Qed.

Lemma X6_state_changes_record_witness :
  _navigationContainer started.1 = Some 0
  ∧ _recentRouteKeys (run (stateChanges [routeB; routeB; routeA]) started).1
    = ["k1"; "k2"; "k2"; "k1"]
  ∧ _latestRoute (run (stateChanges [routeB; routeB; routeA]) started).1 = Some routeA.
Proof.
  assert (H : _navigationContainer started.1 = Some 0) by reflexivity.
  split; [exact H|].
  destruct (X6_state_changes_record [routeB; routeB; routeA] started.1 started.2 0 H)
    as (H1 & H2 & _).
  rewrite <- surjective_pairing in H1, H2.
  split; [exact H1 | exact (H2 routeA [routeB; routeB] eq_refl)].
Defined.

Lemma recordAll_push_split k keys ks :
  ∃ pre, length pre < _maxRecentRouteLen
         ∧ recordAll ks (pushRecentRouteKey k keys)
           = drop (length pre + 1 + length ks - _maxRecentRouteLen) (pre ++ k :: ks).
Proof.
  exists (drop (length (keys ++ [k]) - _maxRecentRouteLen) keys).
  assert (Hpush : pushRecentRouteKey k keys
            = drop (length (keys ++ [k]) - _maxRecentRouteLen) keys ++ [k]).
  { rewrite pushRecentRouteKey_drop.
    apply drop_app_le. rewrite length_app. simpl. unfold _maxRecentRouteLen. lia. }
  split.
  - rewrite length_drop, length_app. simpl. unfold _maxRecentRouteLen. lia.
  - rewrite recordAll_drop by apply pushRecentRouteKey_length.
    rewrite Hpush, <- app_assoc. simpl. f_equal.
    rewrite !length_app. simpl. lia.
Qed.

(** X7. How long the ledger remembers.  With a container registered, once a
    state change has found the route [r], its key is reported as seen
    after fewer than 200 further route-finding state changes, whatever
    their routes; after 200 or more of them, none for that key, it is no
    longer reported as seen. *)
Theorem X7_ledger_memory (r : NavigationRouteV5) (rs : list NavigationRouteV5)
    (s : Instr) (w : World) (c : nat) :
  _navigationContainer s = Some c →
  let sw := run (stateChanges (r :: rs)) (s, w) in
  (length rs < 200 → includes (key r) (_recentRouteKeys sw.1) = true)
  ∧ (200 ≤ length rs → key r ∉ key <$> rs →
     includes (key r) (_recentRouteKeys sw.1) = false).
Proof.
  intros Hc sw. destruct (run_stateChanges (r :: rs) s w c Hc) as (H1 & _).
  fold sw in H1. rewrite H1, fmap_cons.
  change (recordAll (key r :: (key <$> rs)) (_recentRouteKeys s))
    with (recordAll (key <$> rs) (pushRecentRouteKey (key r) (_recentRouteKeys s))).
  destruct (recordAll_push_split (key r) (_recentRouteKeys s) (key <$> rs))
    as (pre & Hpre & ->).
  rewrite length_fmap. unfold _maxRecentRouteLen in *. split.
  - intros Hlen. apply includes_elem_of.
    rewrite drop_app_le by lia. apply elem_of_app. right. apply list_elem_of_here.
  - intros Hlen Hnotin. apply not_true_is_false. rewrite includes_elem_of.
    intros Hin. apply Hnotin.
    replace (pre ++ key r :: (key <$> rs)) with ((pre ++ [key r]) ++ (key <$> rs)) in Hin
      by (rewrite <- app_assoc; reflexivity).
    rewrite drop_app_ge in Hin by (rewrite length_app; simpl; lia).
    revert Hin. apply subseteq_drop.
Qed.

Lemma X7_ledger_memory_witness :
  let rs := replicate 200 routeB in
  (_navigationContainer started.1 = Some 0
   ∧ length [routeB] < 200
   ∧ 200 ≤ length rs
   ∧ key routeA ∉ key <$> rs)
  ∧ includes (key routeA)
      (_recentRouteKeys (run (stateChanges [routeA; routeB]) started).1) = true
  ∧ includes (key routeA)
      (_recentRouteKeys (run (stateChanges (routeA :: rs)) started).1) = false.
Proof.
  intros rs.
  assert (H1 : _navigationContainer started.1 = Some 0) by reflexivity.
  assert (H2 : length [routeB] < 200) by (simpl; lia).
  assert (H3 : 200 ≤ length rs) by (vm_compute; lia).
  assert (H4 : key routeA ∉ key <$> rs).
  { unfold rs. rewrite fmap_replicate. intros [E _]%elem_of_replicate. discriminate E. }
  split; [by split_and!|].
  destruct (X7_ledger_memory routeA [routeB] started.1 started.2 0 H1) as [Hseen _].
  destruct (X7_ledger_memory routeA rs started.1 started.2 0 H1) as [_ Hgone].
  rewrite <- surjective_pairing in Hseen, Hgone.
  split; [exact (Hseen H2) | exact (Hgone H3 H4)].
Defined.

(** X8. Re-fires fill the ledger.  With a container registered, 200 or
    more state changes in a row for routes that all carry the key [k] leave
    the ledger holding that key 200 times and nothing else, so every other
    key is forgotten. *)
Theorem X8_refires_fill_ledger (rs : list NavigationRouteV5) (k : string)
    (s : Instr) (w : World) (c : nat) :
  _navigationContainer s = Some c →
  200 ≤ length rs →
  Forall (fun r => key r = k) rs →
  let sw := run (stateChanges rs) (s, w) in
  _recentRouteKeys sw.1 = replicate 200 k
  ∧ ∀ k', k' ≠ k → includes k' (_recentRouteKeys sw.1) = false.
Proof.
  intros Hc Hlen Hall sw.
  assert (Hkeys : key <$> rs = replicate (length rs) k).
  { clear Hlen sw. induction Hall as [|r rs' Hr _ IH]; csimpl; [done|].
    by rewrite Hr, IH. }
  assert (Hledger : _recentRouteKeys sw.1 = replicate 200 k).
  { destruct (run_stateChanges rs s w c Hc) as (H1 & _). fold sw in H1.
    rewrite H1, Hkeys. destruct (length rs) as [|n] eqn:En; [lia|].
    change (recordAll (replicate (S n) k)) with (recordAll (k :: replicate n k)).
    rewrite recordAll_cons_drop.
    change (k :: replicate n k) with (replicate (S n) k).
    rewrite length_app, length_replicate. unfold _maxRecentRouteLen.
    replace (length (_recentRouteKeys s) + S n - 200)
      with (length (_recentRouteKeys s) + (S n - 200)) by lia.
    rewrite <- drop_drop, drop_app_length, drop_replicate.
    f_equal. lia. }
  split; [exact Hledger|].
  intros k' Hne. apply not_true_is_false. rewrite includes_elem_of, Hledger.
  intros [E _]%elem_of_replicate. done.
Qed.

Lemma X8_refires_fill_ledger_witness :
  let rs := replicate 200 routeB in
  (_navigationContainer started.1 = Some 0
   ∧ 200 ≤ length rs
   ∧ Forall (fun r => key r = "k2") rs)
  ∧ _recentRouteKeys (run (stateChanges rs) started).1 = replicate 200 "k2"
  ∧ includes "k1" (_recentRouteKeys (run (stateChanges rs) started).1) = false.
Proof.
  intros rs.
  assert (H1 : _navigationContainer started.1 = Some 0) by reflexivity.
  assert (H2 : 200 ≤ length rs) by (vm_compute; lia).
  assert (H3 : Forall (fun r => key r = "k2") rs).
  { apply Forall_forall. intros r [-> _]%elem_of_replicate. reflexivity. }
  split; [by split_and!|].
  destruct (X8_refires_fill_ledger rs "k2" started.1 started.2 0 H1 H2 H3) as [Ha Hb].
  rewrite <- surjective_pairing in Ha, Hb.
  split; [exact Ha | apply Hb; discriminate].
Defined.

(** ** Dispatches and timers *)

Lemma run_dispatches_timers n : ∀ s w,
  wf (s, w) →
  let sw := run (replicate n Dispatch) (s, w) in
  wf sw
  ∧ nextTimer sw.2 = nextTimer w + n
  ∧ size (timers sw.2) = size (timers w) + n
  ∧ (∀ h x, timers w !! h = Some x → timers sw.2 !! h = Some x)
  ∧ (∀ h, nextTimer w ≤ h < nextTimer w + n →
       timers sw.2 !! h
       = Some (CallbackDiscardLatestTransaction, routeChangeTimeoutMs (_options s)))
  ∧ (1 ≤ n → _stateChangeTimeout sw.1 = Some (nextTimer w + n - 1)).
Proof.
  induction n as [|n IH]; intros s w Hwf.
  - simpl. split_and!; try done; try lia.
  - cbv zeta.
    change (run (replicate (S n) Dispatch) (s, w))
      with (run (replicate n Dispatch) (_onDispatch s w)).
    pose proof (_onDispatch_wf s w Hwf) as Hwf1.
    destruct (_onDispatch_timers s w Hwf) as [Ht Hsize].
    assert (Hnext : nextTimer (_onDispatch s w).2 = S (nextTimer w)) by reflexivity.
    assert (Hopt : _options (_onDispatch s w).1 = _options s) by reflexivity.
    assert (Hhandle : _stateChangeTimeout (_onDispatch s w).1 = Some (nextTimer w))
      by reflexivity.
    destruct (_onDispatch s w) as [s1 w1]. simpl in Ht, Hsize, Hnext, Hopt, Hhandle.
    destruct (IH s1 w1 Hwf1) as (I0 & I1 & I2 & I3 & I4 & I5).
    rewrite I1, I2, Hnext, Hsize. split_and!; try done; try lia.
    + intros h x Hx. apply I3. rewrite Ht, lookup_insert_ne; [done|].
      destruct Hwf as [_ Hfresh]. simpl in Hfresh.
      assert (h < nextTimer w) by (apply Hfresh, elem_of_dom; eauto). lia.
    + intros h Hh. destruct (decide (h = nextTimer w)) as [->|Hne].
      * apply I3. rewrite Ht. apply lookup_insert_eq.
      * rewrite I4 by lia. by rewrite Hopt.
    + intros _. destruct n as [|n].
      * simpl. rewrite Hhandle. f_equal. lia.
      * rewrite I5 by lia. f_equal. lia.
Qed.

(** X9. A dispatch arms a timer and clears none.  After N dispatches in a
    row from a well-formed state there are N more live timers: every timer
    that was live still is, each dispatch added one with the configured
    delay, and [_stateChangeTimeout] names only the last of them. *)
Theorem X9_dispatches_pile_up_timers (n : nat) (s : Instr) (w : World) :
  wf (s, w) →
  let sw := run (replicate n Dispatch) (s, w) in
  size (timers sw.2) = size (timers w) + n
  ∧ (∀ h x, timers w !! h = Some x → timers sw.2 !! h = Some x)
  ∧ (∀ h, nextTimer w ≤ h < nextTimer w + n →
       timers sw.2 !! h
       = Some (CallbackDiscardLatestTransaction, routeChangeTimeoutMs (_options s)))
  ∧ (1 ≤ n → _stateChangeTimeout sw.1 = Some (nextTimer w + n - 1)).
Proof.
  intros Hwf sw.
  destruct (run_dispatches_timers n s w Hwf) as (_ & _ & H2 & H3 & H4 & H5).
  by split_and!.
Qed.

Lemma X9_dispatches_pile_up_timers_witness :
  let sw := run (replicate 3 Dispatch) (constructor None, emptyWorld) in
  wf (constructor None, emptyWorld)
  ∧ size (timers sw.2) = 3
  ∧ timers sw.2 !! 1 = Some (CallbackDiscardLatestTransaction, 1000%Z)
  ∧ _stateChangeTimeout sw.1 = Some 3.
Proof.
  intros sw.
  assert (H : wf (constructor None, emptyWorld)) by exact (reachable_wf [] None).
  split; [exact H|].
  destruct (X9_dispatches_pile_up_timers 3 (constructor None) emptyWorld H)
    as (H1 & _ & H3 & H4).
  split_and!; [exact H1 | apply (H3 1); simpl; lia | apply H4; lia].
Defined.

(** ** Dispatch followed by a state change *)

Lemma dispatch_then_decorate s w c route :
  _navigationContainer s = Some c →
  routeChanged (_latestRoute s) route = true →
  let sw1 := _onDispatch s w in
  _navigationContainer sw1.1 = Some c
  ∧ _latestTransaction sw1.1 = Some (length (transactions w))
  ∧ transactions sw1.2 !! length (transactions w) = Some blankTransaction
  ∧ routeChanged (_latestRoute sw1.1) route = true
  ∧ updatedOf sw1.1 blankTransaction route = updatedOf s blankTransaction route
  ∧ _beforeNavigate sw1.1 = _beforeNavigate s
  ∧ _stateChangeTimeout sw1.1 = Some (nextTimer w)
  ∧ timers sw1.2
    = <[nextTimer w := (CallbackDiscardLatestTransaction,
                        routeChangeTimeoutMs (_options s))]> (timers w).
Proof.
  intros Hc Hch. simpl. split_and!; try done.
  by rewrite list_lookup_middle.
Qed.

(** X10. The route arrives in time.  From a state with no live timer and a
    container registered: a dispatch followed by a state change for a new
    route, with a hook that returns a context whose [sampled] is not
    [false], leaves no live timer; the transaction of the dispatch carries
    the returned context, was never finished, and no timer event can
    discard it any more. *)
Theorem X10_route_in_time (s : Instr) (w : World) (c : nat) (route : NavigationRouteV5)
    (hook : gmap string JsValue → option (gmap string JsValue))
    (returned : gmap string JsValue) :
  timers w = ∅ →
  _navigationContainer s = Some c →
  routeChanged (_latestRoute s) route = true →
  _beforeNavigate s = Some hook →
  hook (updatedOf s blankTransaction route) = Some returned →
  returned !! "sampled" ≠ Some (JBool false) →
  let sw := run [Dispatch; StateChange (Some route)] (s, w) in
  timers sw.2 = ∅
  ∧ _stateChangeTimeout sw.1 = None
  ∧ transactions sw.2 !! length (transactions w)
    = Some (mkTx returned None [CallUpdateWithContext returned])
  ∧ ∀ h, step (TimerFires h) sw = sw.
Proof.
  intros Hempty Hc Hch Hhook Hret Hsampled sw.
  destruct (dispatch_then_decorate s w c route Hc Hch)
    as (D1 & D2 & D3 & D4 & D5 & D6 & D7 & D8).
  rewrite <- D5 in Hret. rewrite <- D6 in Hhook.
  destruct (decorate_returned _ _ c _ blankTransaction route D1 D2 D3 D4 hook returned
              Hhook Hret) as (Happlied & _ & _ & _ & Hkeep).
  apply sampled_is_false_false in Hsampled. destruct (Hkeep Hsampled) as [K1 K2].
  rewrite D7, D8, Hempty in K2.
  assert (Esw : sw = _onStateChange (Some route) (_onDispatch s w).1 (_onDispatch s w).2)
    by reflexivity.
  assert (Htimers : timers sw.2 = ∅).
  { rewrite Esw, K2, delete_insert_eq. apply delete_empty. }
  split_and!; [exact Htimers | by rewrite Esw | by rewrite Esw |].
  intros h. destruct sw as [s' w']. simpl in Htimers. simpl.
  unfold fireTimer. by rewrite Htimers, lookup_empty.
Qed.

Lemma X10_route_in_time_witness :
  let sw := run [Dispatch; StateChange (Some routeB)] started in
  let updated := updatedOf started.1 blankTransaction routeB in
  (timers started.2 = ∅
   ∧ _navigationContainer started.1 = Some 0
   ∧ routeChanged (_latestRoute started.1) routeB = true
   ∧ _beforeNavigate started.1 = Some keepContext
   ∧ keepContext updated = Some updated
   ∧ updated !! "sampled" ≠ Some (JBool false))
  ∧ timers sw.2 = ∅
  ∧ transactions sw.2 !! 1 = Some (mkTx updated None [CallUpdateWithContext updated])
  ∧ step (TimerFires 2) sw = sw.
Proof.
  intros sw updated.
  assert (H1 : timers started.2 = ∅) by reflexivity.
  assert (H2 : _navigationContainer started.1 = Some 0) by reflexivity.
  assert (H3 : routeChanged (_latestRoute started.1) routeB = true) by reflexivity.
  assert (H4 : _beforeNavigate started.1 = Some keepContext) by reflexivity.
  assert (H5 : keepContext updated = Some updated) by reflexivity.
  assert (H6 : updated !! "sampled" ≠ Some (JBool false)) by (vm_compute; discriminate).
  split; [by split_and!|].
  destruct (X10_route_in_time started.1 started.2 0 routeB keepContext updated
              H1 H2 H3 H4 H5 H6) as (Ha & _ & Hb & Hc).
  rewrite <- surjective_pairing in Ha, Hb, Hc.
  split_and!; [exact Ha | exact Hb | exact (Hc 2)].
Defined.

(** X11. The hook vetoes.  With a container registered: after a dispatch, a
    state change for a new route whose hook returns a context with
    [sampled] false, and the firing of that dispatch's timer, the
    transaction of the dispatch carries the returned context, has [sampled]
    false, received [updateWithContext] and then [finish], and nothing is
    pending. *)
Theorem X11_veto_then_timer (s : Instr) (w : World) (c : nat) (route : NavigationRouteV5)
    (hook : gmap string JsValue → option (gmap string JsValue))
    (returned : gmap string JsValue) :
  _navigationContainer s = Some c →
  routeChanged (_latestRoute s) route = true →
  _beforeNavigate s = Some hook →
  hook (updatedOf s blankTransaction route) = Some returned →
  returned !! "sampled" = Some (JBool false) →
  let sw := run [Dispatch; StateChange (Some route); TimerFires (nextTimer w)] (s, w) in
  transactions sw.2 !! length (transactions w)
  = Some (mkTx returned (Some false) [CallUpdateWithContext returned; CallFinish])
  ∧ _latestTransaction sw.1 = None
  ∧ timers sw.2 = delete (nextTimer w) (timers w).
Proof.
  intros Hc Hch Hhook Hret Hsampled sw.
  destruct (dispatch_then_decorate s w c route Hc Hch)
    as (D1 & D2 & D3 & D4 & D5 & D6 & D7 & D8).
  rewrite <- D5 in Hret. rewrite <- D6 in Hhook.
  destruct (decorate_returned _ _ c _ blankTransaction route D1 D2 D3 D4 hook returned
              Hhook Hret) as (Happlied & _ & Hlatest & Hveto & _).
  apply sampled_is_false_true in Hsampled. destruct (Hveto Hsampled) as [V1 V2].
  rewrite D8 in V2.
  assert (Esw : sw = fireTimer (nextTimer w)
            (_onStateChange (Some route) (_onDispatch s w).1 (_onDispatch s w).2).1
            (_onStateChange (Some route) (_onDispatch s w).1 (_onDispatch s w).2).2)
    by reflexivity.
  rewrite Esw.
  destruct (_onStateChange (Some route) (_onDispatch s w).1 (_onDispatch s w).2)
    as [s2 w2] eqn:E2.
  simpl in Happlied, Hlatest, V2. simpl fst. simpl snd.
  unfold fireTimer. rewrite V2, lookup_insert_eq.
  unfold _discardLatestTransaction. rewrite Hlatest. simpl.
  rewrite !list_lookup_alter_eq, Happlied, V2. split_and!; try done.
  apply delete_insert_eq.
Qed.

Lemma X11_veto_then_timer_witness :
  let s := (startedWith vetoContext).1 in
  let w := (startedWith vetoContext).2 in
  let vetoed := <["sampled" := JBool false]> (updatedOf s blankTransaction routeB) in
  let sw := run [Dispatch; StateChange (Some routeB); TimerFires 2] (s, w) in
  (_navigationContainer s = Some 0
   ∧ routeChanged (_latestRoute s) routeB = true
   ∧ _beforeNavigate s = Some vetoContext
   ∧ vetoContext (updatedOf s blankTransaction routeB) = Some vetoed
   ∧ vetoed !! "sampled" = Some (JBool false)
   ∧ nextTimer w = 2)
  ∧ transactions sw.2 !! 1
    = Some (mkTx vetoed (Some false) [CallUpdateWithContext vetoed; CallFinish])
  ∧ _latestTransaction sw.1 = None.
Proof.
  intros s w vetoed sw.
  assert (H1 : _navigationContainer s = Some 0) by reflexivity.
  assert (H2 : routeChanged (_latestRoute s) routeB = true) by reflexivity.
  assert (H3 : _beforeNavigate s = Some vetoContext) by reflexivity.
  assert (H4 : vetoContext (updatedOf s blankTransaction routeB) = Some vetoed)
    by reflexivity.
  assert (H5 : vetoed !! "sampled" = Some (JBool false)) by apply lookup_insert_eq.
  split; [by split_and!|].
  destruct (X11_veto_then_timer s w 0 routeB vetoContext vetoed H1 H2 H3 H4 H5)
    as (Ha & Hb & _).
  split; [exact Ha | exact Hb].
Defined.

(** ** No container registered *)

Lemma run_stateChanges_no_container currents : ∀ s w,
  _navigationContainer s = None →
  let sw := run (StateChange <$> currents) (s, w) in
  sw.1 = s
  ∧ transactions sw.2 = transactions w
  ∧ timers sw.2 = timers w
  ∧ hookCalls sw.2 = hookCalls w
  ∧ logged sw.2
    = logged w ++ replicate (length currents) (LevelWarn, MsgMissingContainerRef).
Proof.
  induction currents as [|cur rest IH]; intros s w Hc.
  - simpl. by rewrite app_nil_r.
  - cbv zeta.
    change (run (StateChange <$> cur :: rest) (s, w))
      with (run (StateChange <$> rest) (_onStateChange cur s w)).
    assert (E : _onStateChange cur s w = (s, log LevelWarn MsgMissingContainerRef w)).
    { unfold _onStateChange. by rewrite Hc. }
    rewrite E. destruct (IH s (log LevelWarn MsgMissingContainerRef w) Hc)
      as (I1 & I2 & I3 & I4 & I5).
    rewrite I1, I2, I3, I4, I5. simpl. by rewrite <- app_assoc.
Qed.

(** X12. Without a registered container no route transaction survives.
    After a dispatch, any number of state changes only log a warning each:
    they leave the instance, the transactions and the timers alone and never
    call the hook; when the timer of the dispatch fires, its transaction,
    still carrying the blank template, gets [sampled] false and is
    finished. *)
Theorem X12_no_container (currents : list (option NavigationRouteV5))
    (s : Instr) (w : World) :
  _navigationContainer s = None →
  let sw := run (Dispatch :: (StateChange <$> currents) ++ [TimerFires (nextTimer w)])
                (s, w) in
  transactions sw.2 !! length (transactions w)
  = Some (mkTx BLANK_TRANSACTION_CONTEXT_V5 (Some false) [CallFinish])
  ∧ hookCalls sw.2 = hookCalls w
  ∧ _latestRoute sw.1 = _latestRoute s
  ∧ _recentRouteKeys sw.1 = _recentRouteKeys s
  ∧ _latestTransaction sw.1 = None
  ∧ logged sw.2
    = logged w ++ replicate (length currents) (LevelWarn, MsgMissingContainerRef).
Proof.
  intros Hc sw.
  assert (Esw : sw = step (TimerFires (nextTimer w))
                       (run (StateChange <$> currents) (_onDispatch s w))).
  { unfold sw. change (Dispatch :: ?l) with ([Dispatch] ++ l).
    by rewrite !run_app. }
  assert (Hc1 : _navigationContainer (_onDispatch s w).1 = None) by exact Hc.
  destruct (run_stateChanges_no_container currents _ (_onDispatch s w).2 Hc1)
    as (I1 & I2 & I3 & I4 & I5).
  rewrite <- surjective_pairing in I1, I2, I3, I4, I5.
  destruct (run (StateChange <$> currents) (_onDispatch s w)) as [s2 w2].
  simpl in I1, I2, I3, I4, I5. subst s2. rewrite Esw. simpl step.
  unfold fireTimer. rewrite I3, lookup_insert_eq.
  unfold _discardLatestTransaction. simpl.
  rewrite !list_lookup_alter_eq, I2, I4, I5, list_lookup_middle by done.
  by split_and!.
Qed.

Lemma X12_no_container_witness :
  let s := constructor None in
  let sw := run [Dispatch; StateChange (Some routeA); StateChange None; TimerFires 1]
                (s, emptyWorld) in
  _navigationContainer s = None
  ∧ transactions sw.2 !! 0
    = Some (mkTx BLANK_TRANSACTION_CONTEXT_V5 (Some false) [CallFinish])
  ∧ logged sw.2 = [(LevelWarn, MsgMissingContainerRef); (LevelWarn, MsgMissingContainerRef)].
Proof.
  intros s sw.
  assert (H : _navigationContainer s = None) by reflexivity.
  split; [exact H|].
  destruct (X12_no_container [Some routeA; None] s emptyWorld H)
    as (Ha & _ & _ & _ & _ & Hb).
  split; [exact Ha | exact Hb].
Defined.

(** ** Decorating twice *)

Lemma updatedContext_tags o r b p :
  updatedContext o r b p !! "tags"
  = Some (JObj (<["routing.route.name" := JStr (name r)]> (spread (o !! "tags")))).
Proof. unfold updatedContext. rewrite lookup_insert_ne by done. apply lookup_insert_eq. Qed.

Lemma updatedContext_data o r b p :
  updatedContext o r b p !! "data"
  = Some (JObj (<["previousRoute" := previousRouteData p]>
               (<["route" := routeData r b]> (spread (o !! "data"))))).
Proof. unfold updatedContext. apply lookup_insert_eq. Qed.

(** X13. The last route wins.  Building the updated context on top of an
    updated context gives what building it on the original snapshot gives:
    of an earlier decoration of the same transaction nothing is left, not
    its name, its route tag, its route data or its previous route. *)
Theorem X13_last_route_wins (original : gmap string JsValue)
    (r1 r2 : NavigationRouteV5) (seen1 seen2 : bool)
    (previous1 previous2 : option NavigationRouteV5) :
  updatedContext (updatedContext original r1 seen1 previous1) r2 seen2 previous2
  = updatedContext original r2 seen2 previous2.
Proof.
  unfold updatedContext at 1.
  rewrite updatedContext_tags, updatedContext_data. simpl spread.
  rewrite insert_insert_eq.
  rewrite (insert_insert_ne _ "route" "previousRoute") by done.
  rewrite (insert_insert_eq _ "route"), (insert_insert_eq _ "previousRoute").
  unfold updatedContext.
  apply map_eq. intros i.
  destruct (decide (i = "data")) as [->|Hd]; [by rewrite !lookup_insert_eq|].
  rewrite !(lookup_insert_ne _ "data") by done.
  destruct (decide (i = "tags")) as [->|Ht]; [by rewrite !lookup_insert_eq|].
  rewrite !(lookup_insert_ne _ "tags") by done.
  destruct (decide (i = "name")) as [->|Hn]; [by rewrite !lookup_insert_eq|].
  by rewrite !lookup_insert_ne by done.
Qed.

(** ** Registration *)

(** X1. The two registrations may come in either order.  On a new instance
    in a process whose flag is unset, setting up the integration and then
    registering a container that shows [route] ends in the same instance
    state, the same transactions, timers, listeners and hook calls as
    registering first and setting up second; only the log differs, by the
    note that the integration was not set up yet.  Either way the initial
    state is handled, one transaction exists, the hook was called once with
    the route as a first visit and no previous route, and the flag is set. *)
Theorem X1_registration_order (options : option Z)
    (hook : gmap string JsValue → option (gmap string JsValue))
    (ref : NavigationContainerRef) (c : nat) (route : NavigationRouteV5) (w : World) :
  __sentry_rn_v5_registered w = false →
  resolve ref = Some c →
  let setupFirst :=
    run [RegisterRoutingInstrumentation hook (Some route);
         RegisterNavigationContainer ref (Some route)] (constructor options, w) in
  let containerFirst :=
    run [RegisterNavigationContainer ref (Some route);
         RegisterRoutingInstrumentation hook (Some route)] (constructor options, w) in
  setupFirst.1 = containerFirst.1
  ∧ transactions setupFirst.2 = transactions containerFirst.2
  ∧ timers setupFirst.2 = timers containerFirst.2
  ∧ listeners setupFirst.2 = listeners containerFirst.2
  ∧ hookCalls setupFirst.2 = hookCalls containerFirst.2
  ∧ (∃ entries,
       logged setupFirst.2 = logged w ++ entries
       ∧ logged containerFirst.2 = logged w ++ (LevelLog, MsgNotSetupYet) :: entries)
  ∧ _initialStateHandled setupFirst.1 = true
  ∧ length (transactions setupFirst.2) = S (length (transactions w))
  ∧ hookCalls setupFirst.2
    = hookCalls w ++ [updatedContext BLANK_TRANSACTION_CONTEXT_V5 route false None]
  ∧ _latestRoute setupFirst.1 = Some route
  ∧ __sentry_rn_v5_registered setupFirst.2 = true
  ∧ __sentry_rn_v5_registered containerFirst.2 = true.
Proof.
  intros Hflag Href setupFirst containerFirst.
  unfold setupFirst, containerFirst.
  destruct w as [txs tms nt ls fl hc lg]. simpl in Hflag. subst fl.
  assert (Href' : ref = RefObject (Some c) ∨ ref = ContainerItself c).
  { destruct ref as [[?|]|?|]; simplify_eq/=; auto. }
  unfold run, foldl, step, registerRoutingInstrumentation, registerNavigationContainer,
    registerResolved, _onStateChange, decorate, callBeforeNavigate, toContext.
  destruct Href' as [-> | ->]; simpl.
  all: rewrite list_lookup_middle by done; simpl.
  all: destruct (hook _) as [returned|]; simpl.
  all: destruct (sampled_is_false _); simpl.
  all: rewrite ?length_alter, ?length_app; simpl; split_and!; try done; try lia.
  all: rewrite <- ?app_assoc; simpl.
  all: first [ by exists []; rewrite app_nil_r | by eexists; split ].
Qed.

Lemma X1_registration_order_witness :
  let setupFirst :=
    run [RegisterRoutingInstrumentation keepContext (Some routeA);
         RegisterNavigationContainer (RefObject (Some 0)) (Some routeA)]
        (constructor None, emptyWorld) in
  let containerFirst :=
    run [RegisterNavigationContainer (RefObject (Some 0)) (Some routeA);
         RegisterRoutingInstrumentation keepContext (Some routeA)]
        (constructor None, emptyWorld) in
  (__sentry_rn_v5_registered emptyWorld = false
   ∧ resolve (RefObject (Some 0)) = Some 0)
  ∧ setupFirst.1 = containerFirst.1
  ∧ transactions setupFirst.2 = transactions containerFirst.2
  ∧ _initialStateHandled containerFirst.1 = true.
Proof.
  intros setupFirst containerFirst.
  assert (H1 : __sentry_rn_v5_registered emptyWorld = false) by reflexivity.
  assert (H2 : resolve (RefObject (Some 0)) = Some 0) by reflexivity.
  split; [by split|].
  destruct (X1_registration_order None keepContext (RefObject (Some 0)) 0 routeA
              emptyWorld H1 H2) as (Ha & Hb & _ & _ & _ & _ & Hc & _).
  fold setupFirst containerFirst in Ha, Hb, Hc.
  split_and!; [exact Ha | exact Hb | by rewrite <- Ha].
Defined.

Lemma step_initialStateHandled e sw :
  _initialStateHandled sw.1 = true → _initialStateHandled (step e sw).1 = true.
Proof.
  destruct sw as [s w]. simpl. intros H.
  assert (Hsc : ∀ cur s' w', _initialStateHandled (_onStateChange cur s' w').1
                             = _initialStateHandled s').
  { intros. handler_cases. }
  destruct e; simpl.
  - unfold registerRoutingInstrumentation. simpl. by rewrite H.
  - unfold registerNavigationContainer, registerResolved.
    destruct (negb (__sentry_rn_v5_registered w)); [|done].
    destruct ref as [[c|]|c|]; simpl; rewrite ?H; simpl; done.
  - done.
  - by rewrite Hsc.
  - unfold fireTimer. destruct (timers w !! h) as [[[] ?]|]; [|done].
    unfold _discardLatestTransaction. by destruct (_latestTransaction s).
Qed.

(** X2. The initial state is handled once.  When [_initialStateHandled] is
    set it stays set whatever happens next, and from then on
    [registerRoutingInstrumentation] only replaces the hook: it starts no
    transaction, arms no timer, calls no hook and logs nothing. *)
Theorem X2_initial_state_once (es : list Event) (s : Instr) (w : World) :
  _initialStateHandled s = true →
  let sw := run es (s, w) in
  _initialStateHandled sw.1 = true
  ∧ ∀ hook current,
      step (RegisterRoutingInstrumentation hook current) sw
      = (set_beforeNavigate (Some hook) sw.1, sw.2).
Proof.
  intros H sw.
  assert (Hrun : _initialStateHandled sw.1 = true).
  { unfold sw. apply (run_preserves (fun sw => _initialStateHandled sw.1 = true));
      [apply step_initialStateHandled | exact H]. }
  split; [exact Hrun|]. intros hook current. simpl.
  unfold registerRoutingInstrumentation. simpl. by rewrite Hrun.
Qed.

Lemma X2_initial_state_once_witness :
  let sw := run [Dispatch; StateChange (Some routeB)] started in
  _initialStateHandled started.1 = true
  ∧ _initialStateHandled sw.1 = true
  ∧ step (RegisterRoutingInstrumentation vetoContext (Some routeA)) sw
    = (set_beforeNavigate (Some vetoContext) sw.1, sw.2).
Proof.
  intros sw.
  assert (H : _initialStateHandled started.1 = true) by reflexivity.
  split; [exact H|].
  destruct (X2_initial_state_once [Dispatch; StateChange (Some routeB)]
              started.1 started.2 H) as [Ha Hb].
  rewrite <- surjective_pairing in Ha, Hb.
  split; [exact Ha | exact (Hb vetoContext (Some routeA))].
Defined.

Lemma step_registeredOnce e sw : registeredOnce sw → registeredOnce (step e sw).
Proof.
  destruct sw as [s w]. unfold registeredOnce. simpl.
  assert (Hsc : ∀ cur s' w',
            __sentry_rn_v5_registered (_onStateChange cur s' w').2
            = __sentry_rn_v5_registered w'
            ∧ listeners (_onStateChange cur s' w').2 = listeners w'
            ∧ _navigationContainer (_onStateChange cur s' w').1 = _navigationContainer s'
            ∧ _initialStateHandled (_onStateChange cur s' w').1 = _initialStateHandled s').
  { intros. split_and!; handler_cases. }
  intros H. destruct e; simpl.
  - unfold registerRoutingInstrumentation. simpl.
    destruct H as [(Hf & Hl & Hc & Hi) | (c & Hf & Hl & Hc)].
    + rewrite Hi, Hc. simpl. left. by split_and!.
    + right. exists c. destruct (_initialStateHandled s); simpl; [by split_and!|].
      rewrite Hc. simpl.
      destruct (Hsc current
                  (set_stateChangeTimeout (Some (nextTimer w))
                     (set_latestTransaction (Some (length (transactions w)))
                        (set_beforeNavigate (Some beforeNavigate) s)))
                  (setTimeout CallbackDiscardLatestTransaction
                     (routeChangeTimeoutMs (_options s))
                     (onRouteWillChange BLANK_TRANSACTION_CONTEXT_V5 w).2).2)
        as (E1 & E2 & E3 & _).
      unfold setTimeout, onRouteWillChange in E1, E2, E3. simpl in E1, E2, E3.
      destruct (_onStateChange _ _ _) as [s2 w2]. simpl in *.
      rewrite E1, E2, E3. by split_and!.
  - unfold registerNavigationContainer, registerResolved.
    destruct H as [(Hf & Hl & Hc & Hi) | (c & Hf & Hl & Hc)].
    + rewrite Hf. simpl.
      destruct ref as [[c|]|c|]; simpl.
      2, 4: left; by split_and!.
      all: right; exists c; rewrite Hi; simpl.
      all: destruct (_latestTransaction s); simpl; [|by rewrite Hl].
      all: match goal with
           | |- context [_onStateChange ?cur ?s' ?w'] =>
               destruct (Hsc cur s' w') as (_ & E2 & E3 & _);
               destruct (_onStateChange cur s' w') as [s2 w2]
           end; simpl in *; by rewrite E2, E3, Hl.
    + rewrite Hf. simpl. right. exists c. by split_and!.
  - destruct H as [(Hf & Hl & Hc & Hi) | (c & Hf & Hl & Hc)];
      [left | right; exists c]; by split_and!.
  - destruct (Hsc current s w) as (E1 & E2 & E3 & E4).
    rewrite E1, E2, E3, E4. exact H.
  - unfold fireTimer. destruct (timers w !! h) as [[[] ?]|]; [|done].
    unfold _discardLatestTransaction.
    destruct (_latestTransaction s); simpl; exact H.
Qed.

(** X3. One registration at most.  Along every run of events of a new
    instance in a new process the listeners are either none, or exactly
    the dispatch listener and the state listener of one container, which is
    the container the instance holds, with the flag set; a second
    container never gets listeners, and the initial state is handled only
    once a container is registered. *)
Theorem X3_registered_once (es : list Event) (options : option Z) :
  let sw := run es (constructor options, emptyWorld) in
  registeredOnce sw
  ∧ length (listeners sw.2) ≤ 2
  ∧ (_initialStateHandled sw.1 = true → __sentry_rn_v5_registered sw.2 = true)
  ∧ (∀ c, _navigationContainer sw.1 = Some c →
       listeners sw.2 = registeredListeners c ∧ __sentry_rn_v5_registered sw.2 = true).
Proof.
  intros sw.
  assert (H : registeredOnce sw).
  { unfold sw. apply (run_preserves registeredOnce); [apply step_registeredOnce|].
    left. by split_and!. }
  split; [exact H|].
  destruct H as [(Hf & Hl & Hc & Hi) | (c & Hf & Hl & Hc)].
  - rewrite Hl, Hi, Hc. split_and!; [simpl; lia | done | done].
  - rewrite Hl, Hf, Hc. split_and!; [simpl; lia | done |].
    by intros c' [= <-].
Qed.

Lemma X3_registered_once_witness :
  let sw := run [RegisterNavigationContainer (ContainerItself 0) None;
                 RegisterNavigationContainer (ContainerItself 1) None]
                (constructor None, emptyWorld) in
  _navigationContainer sw.1 = Some 0
  ∧ listeners sw.2 = registeredListeners 0
  ∧ __sentry_rn_v5_registered sw.2 = true
  ∧ length (listeners sw.2) ≤ 2.
Proof.
  intros sw.
  assert (H : _navigationContainer sw.1 = Some 0) by reflexivity.
  split; [exact H|].
  destruct (X3_registered_once
              [RegisterNavigationContainer (ContainerItself 0) None;
               RegisterNavigationContainer (ContainerItself 1) None] None)
    as (_ & Hlen & _ & Hc).
  destruct (Hc 0 H) as [Ha Hb].
  split_and!; [exact Ha | exact Hb | exact Hlen].
Defined.

(** ** Timers and finished transactions along runs *)

(** What a state change can do to the options, the timers and the store:
    clear one timer, and call [updateWithContext] on the pending
    transaction. *)
Lemma _onStateChange_effects current s w :
  let sw := _onStateChange current s w in
  _options sw.1 = _options s
  ∧ (∀ h x, timers sw.2 !! h = Some x → timers w !! h = Some x)
  ∧ (transactions sw.2 = transactions w
     ∨ ∃ t ctx, _latestTransaction s = Some t
                ∧ transactions sw.2
                  = alter (fun tx => mkTx ctx (tx_sampled tx)
                                          (tx_calls tx ++ [CallUpdateWithContext ctx]))
                          t (transactions w)).
Proof.
  unfold _onStateChange, decorate, callBeforeNavigate.
  destruct (_navigationContainer s); [|by split_and!; auto].
  destruct current as [route|]; [|by split_and!; auto].
  destruct (_latestTransaction s) as [t|] eqn:El; [|by split_and!; auto].
  destruct (routeChanged (_latestRoute s) route); [|by split_and!; auto].
  destruct (_beforeNavigate s) as [hook|]; [destruct (hook _)|].
  all: destruct (sampled_is_false _); [|destruct (_stateChangeTimeout s)].
  all: simpl; split_and!; try done; try (right; eauto; fail).
  all: intros h x; rewrite lookup_delete_Some; tauto.
Qed.

Lemma step_timersConfigured ms e sw :
  timersConfigured ms sw → timersConfigured ms (step e sw).
Proof.
  apply (step_preserves (timersConfigured ms)); unfold timersConfigured.
  - intros [s1 w1] [s2 w2] (_ & Ho & _ & Ht & _). simpl in *. by rewrite Ho, Ht.
  - intros s1 w1 [Ho Ht]. simpl in *. split; [done|].
    intros h x. rewrite lookup_insert_Some. intros [[_ <-]|[_ Hx]].
    + by rewrite Ho.
    + by apply (Ht h).
  - intros cur s1 w1 [Ho Ht]. simpl in *.
    destruct (_onStateChange_effects cur s1 w1) as (Eo & Et & _).
    rewrite Eo. split; [done|]. intros h x Hx. apply (Ht h). by apply Et.
  - intros h s1 w1 [Ho Ht]. simpl in *. unfold fireTimer.
    destruct (timers w1 !! h) as [[[] ?]|]; [|done].
    assert (Hd : ∀ h' x, delete h (timers w1) !! h' = Some x →
                 x = (CallbackDiscardLatestTransaction, ms)).
    { intros h' x [_ Hx]%lookup_delete_Some. by apply (Ht h'). }
    unfold _discardLatestTransaction. by destruct (_latestTransaction s1).
Qed.

(** X4. Every timer waits for the configured time.  Along every run of
    events of a new instance, the options stay what the constructor made
    them, the given [routeChangeTimeoutMs] or 1000 when none was given, and
    every live timer runs the discard callback after exactly that time. *)
Theorem X4_timers_configured (es : list Event) (options : option Z) :
  let sw := run es (constructor options, emptyWorld) in
  let ms := default 1000%Z options in
  routeChangeTimeoutMs (_options sw.1) = ms
  ∧ ∀ h x, timers sw.2 !! h = Some x → x = (CallbackDiscardLatestTransaction, ms).
Proof.
  intros sw ms.
  apply (run_preserves (timersConfigured ms)); [apply step_timersConfigured|].
  split; [by destruct options|]. intros h x. simpl. by rewrite lookup_empty.
Qed.

Lemma X4_timers_configured_witness :
  let sw := run [Dispatch] (constructor (Some 250%Z), emptyWorld) in
  timers sw.2 !! 1 = Some (CallbackDiscardLatestTransaction, 250%Z)
  ∧ routeChangeTimeoutMs (_options sw.1) = 250%Z
  ∧ (CallbackDiscardLatestTransaction, 250%Z)
    = (CallbackDiscardLatestTransaction, default 1000%Z (Some 250%Z)).
Proof.
  intros sw.
  assert (H : timers sw.2 !! 1 = Some (CallbackDiscardLatestTransaction, 250%Z))
    by reflexivity.
  split; [exact H|].
  destruct (X4_timers_configured [Dispatch] (Some 250%Z)) as [Ha Hb].
  split; [exact Ha | exact (Hb 1 _ H)].
Defined.

Lemma finishCalls_update tx ctx :
  finishCalls (mkTx ctx (tx_sampled tx) (tx_calls tx ++ [CallUpdateWithContext ctx]))
  = finishCalls tx.
Proof. unfold finishCalls. simpl. rewrite List.filter_app, length_app. simpl. lia. Qed.

Lemma finishCalls_finish tx ctx sampled :
  finishCalls (mkTx ctx sampled (tx_calls tx ++ [CallFinish])) = S (finishCalls tx).
Proof. unfold finishCalls. simpl. rewrite List.filter_app, length_app. simpl. lia. Qed.

Lemma step_finishedOnce e sw : finishedOnce sw → finishedOnce (step e sw).
Proof.
  apply (step_preserves finishedOnce); unfold finishedOnce.
  - intros [s1 w1] [s2 w2] (El & _ & Et & _). simpl in *. by rewrite El, Et.
  - intros s1 w1 H. simpl in *. intros i tx Hi.
    apply lookup_app_Some in Hi as [Hi | [Hlen Hi]].
    + destruct (H i tx Hi) as [H1 _]. split; [done|].
      intros [= <-]. apply lookup_lt_Some in Hi. lia.
    + apply list_lookup_singleton_Some in Hi as [_ <-].
      split; [unfold finishCalls; simpl; lia | done].
  - intros cur s1 w1 H.
    destruct (_onStateChange_pending cur s1 w1) as (El & _).
    destruct (_onStateChange_effects cur s1 w1) as (_ & _ & [Et | (t & ctx & Ht & Et)]).
    + rewrite El, Et. exact H.
    + rewrite El, Et. intros i tx. rewrite list_lookup_alter.
      destruct (decide (t = i)) as [->|Hne]; [|apply H].
      destruct (transactions w1 !! i) as [tx0|] eqn:E0; [|done].
      intros [= <-]. rewrite finishCalls_update. simpl. by apply H.
  - intros h s1 w1 H. unfold fireTimer.
    destruct (timers w1 !! h) as [[[] ?]|]; [|done].
    unfold _discardLatestTransaction.
    destruct (_latestTransaction s1) as [t|] eqn:El; [|exact H].
    simpl. intros i tx. destruct (decide (t = i)) as [->|Hne].
    + rewrite !list_lookup_alter_eq.
      destruct (transactions w1 !! i) as [tx0|] eqn:E0; simpl; [|done].
      intros [= <-]. split; [|done].
      rewrite finishCalls_finish. destruct (H i tx0 E0) as [_ H0].
      destruct (H0 El) as [E _]. rewrite E. lia.
    + rewrite !list_lookup_alter_ne by done. intros Hi.
      destruct (H i tx Hi) as [H1 _]. by split.
Qed.

(** X14. No transaction is finished twice.  Along every run of events of a
    new instance, [finish] is called at most once on every transaction;
    the pending transaction has not been finished and nobody assigned its
    [sampled]; and a transaction on which [finish] was called is not
    pending. *)
Theorem X14_finished_once (es : list Event) (options : option Z) :
  let sw := run es (constructor options, emptyWorld) in
  ∀ i tx, transactions sw.2 !! i = Some tx →
    finishCalls tx ≤ 1
    ∧ (_latestTransaction sw.1 = Some i → finishCalls tx = 0 ∧ tx_sampled tx = None)
    ∧ (finishCalls tx = 1 → _latestTransaction sw.1 ≠ Some i).
Proof.
  intros sw.
  assert (H : finishedOnce sw).
  { apply (run_preserves finishedOnce); [apply step_finishedOnce|].
    intros i tx. simpl. by rewrite lookup_nil. }
  intros i tx Hi. destruct (H i tx Hi) as [H1 H2]. split_and!; [done..|].
  intros Hone Hl. destruct (H2 Hl). lia.
Qed.

Lemma X14_finished_once_witness :
  let sw := run [Dispatch; TimerFires 1; TimerFires 1; Dispatch]
                (constructor None, emptyWorld) in
  transactions sw.2 !! 0
  = Some (mkTx BLANK_TRANSACTION_CONTEXT_V5 (Some false) [CallFinish])
  ∧ finishCalls (mkTx BLANK_TRANSACTION_CONTEXT_V5 (Some false) [CallFinish]) ≤ 1
  ∧ _latestTransaction sw.1 ≠ Some 0.
Proof.
  intros sw.
  assert (H : transactions sw.2 !! 0
              = Some (mkTx BLANK_TRANSACTION_CONTEXT_V5 (Some false) [CallFinish]))
    by reflexivity.
  split; [exact H|].
  destruct (X14_finished_once [Dispatch; TimerFires 1; TimerFires 1; Dispatch] None
              0 _ H) as (Ha & _ & Hb).
  split; [exact Ha | apply Hb; reflexivity].
Defined.

(** ** The ledger of an instance *)

Lemma _pushRecentRouteKey_keys k s :
  _recentRouteKeys (_pushRecentRouteKey k s)
  = drop (length (_recentRouteKeys s ++ [k]) - 200) (_recentRouteKeys s ++ [k]).
Proof. unfold _pushRecentRouteKey. simpl. apply pushRecentRouteKey_drop. Qed.

Lemma run_stateChanges_ledger r rs s w c :
  _navigationContainer s = Some c →
  _recentRouteKeys (run (stateChanges (r :: rs)) (s, w)).1
  = drop (length (_recentRouteKeys s ++ (key <$> r :: rs)) - 200)
         (_recentRouteKeys s ++ (key <$> r :: rs)).
Proof.
  intros Hc. destruct (run_stateChanges (r :: rs) s w c Hc) as (H & _).
  rewrite H, fmap_cons. apply recordAll_cons_drop.
Qed.

Lemma drop_app_last_200 (old ks : list string) :
  200 ≤ length ks →
  drop (length (old ++ ks) - 200) (old ++ ks) = drop (length ks - 200) ks.
Proof.
  intros Hlen. rewrite length_app.
  replace (length old + length ks - 200) with (length old + (length ks - 200)) by lia.
  by rewrite <- drop_drop, drop_app_length.
Qed.

(** C7. The ledger of route keys is bounded.  With a container registered,
    after more than 200 state changes that each find a route, whatever the
    ledger held before and whether or not the keys are distinct, the
    instance's ledger holds exactly 200 entries: the keys of the last 200
    of those routes, in the order they were recorded; [includes] answers
    true exactly for the keys among them.  The eviction happens at every
    insert: [_pushRecentRouteKey] leaves the last 200 entries of the ledger
    followed by the new key, so after any one of the state changes, after
    any push and in any state the instance can reach, the ledger has at
    most 200 entries.  The same holds of the array operations alone,
    started from the empty ledger. *)
Theorem C7_ledger_bounded (rs : list NavigationRouteV5)
    (s : Instr) (w : World) (c : nat) :
  _navigationContainer s = Some c →
  200 < length rs →
  let ks := key <$> rs in
  let ledger := _recentRouteKeys (run (stateChanges rs) (s, w)).1 in
  length ledger = 200
  ∧ ledger = drop (length ks - 200) ks
  ∧ (∀ k, includes k ledger = true ↔ k ∈ drop (length ks - 200) ks)
  ∧ (∀ n, 1 ≤ n →
       length (_recentRouteKeys (run (stateChanges (take n rs)) (s, w)).1) ≤ 200)
  ∧ (∀ k s0,
       _recentRouteKeys (_pushRecentRouteKey k s0)
       = drop (length (_recentRouteKeys s0 ++ [k]) - 200) (_recentRouteKeys s0 ++ [k])
       ∧ length (_recentRouteKeys (_pushRecentRouteKey k s0)) ≤ 200)
  ∧ (∀ es options,
       length (_recentRouteKeys (run es (constructor options, emptyWorld)).1) ≤ 200)
  ∧ (length (recordAll ks []) = 200
     ∧ recordAll ks [] = drop (length ks - 200) ks
     ∧ (∀ k, includes k (recordAll ks []) = true ↔ k ∈ drop (length ks - 200) ks)
     ∧ (∀ n, length (recordAll (take n ks) []) ≤ 200)
     ∧ (∀ k keys, length (pushRecentRouteKey k keys) ≤ 200)).
Proof.
  intros Hc Hlen ks ledger.
  assert (Hks : length ks = length rs) by (unfold ks; apply length_fmap).
  assert (Hledger : ledger = drop (length ks - 200) ks).
  { unfold ledger. destruct rs as [|r rs']; [simpl in Hlen; lia|].
    rewrite (run_stateChanges_ledger r rs' s w c Hc).
    apply drop_app_last_200. fold ks. lia. }
  assert (Hlist : recordAll ks [] = drop (length ks - 200) ks).
  { rewrite recordAll_drop by (simpl; lia). reflexivity. }
  split_and!.
  - rewrite Hledger, length_drop. lia.
  - exact Hledger.
  - intros k. rewrite Hledger. apply includes_elem_of.
  - intros n Hn. destruct rs as [|r rs']; [simpl in Hlen; lia|].
    destruct n as [|n]; [lia|]. rewrite firstn_cons.
    rewrite (run_stateChanges_ledger r (take n rs') s w c Hc), length_drop. lia.
  - intros k s0. split; [apply _pushRecentRouteKey_keys|].
    rewrite _pushRecentRouteKey_keys, length_drop. lia.
  - intros es options. apply run_ledger_length. simpl. lia.
  - rewrite Hlist, length_drop. lia.
  - exact Hlist.
  - intros k. rewrite Hlist. apply includes_elem_of.
  - intros n. rewrite recordAll_drop by (simpl; lia). simpl.
    rewrite length_drop. unfold _maxRecentRouteLen. lia.
  - apply pushRecentRouteKey_length.
Qed.

Lemma C7_ledger_bounded_witness :
  let ledger := _recentRouteKeys (run (stateChanges manyRoutes) started).1 in
  (_navigationContainer started.1 = Some 0
   ∧ 200 < length manyRoutes)
  ∧ length ledger = 200
  ∧ ledger = drop (length (key <$> manyRoutes) - 200) (key <$> manyRoutes)
  ∧ length (recordAll (key <$> manyRoutes) []) = 200.
Proof.
  intros ledger.
  assert (H1 : _navigationContainer started.1 = Some 0) by reflexivity.
  assert (H2 : 200 < length manyRoutes) by (vm_compute; lia).
  split; [by split|].
  destruct (C7_ledger_bounded manyRoutes started.1 started.2 0 H1 H2)
    as (Ha & Hb & _ & _ & _ & _ & Hc & _).
  rewrite <- surjective_pairing in Ha, Hb.
  split_and!; [exact Ha | exact Hb | exact Hc].
Defined.
